(** * ArrStalledHandler: a shallow embedding of [main.py]

    The program polls the download queues of Radarr and Sonarr instances,
    remembers in an SQLite table when a stalled download was first seen, and
    once a download has been stalled for longer than [STALLED_TIMEOUT] seconds
    removes and blocklists it and asks the backend to search again.

    The embedding follows the source function by function.  The outside world
    (HTTP backends and the clock) is an oracle [Env]; the SQLite table and the
    list of HTTP requests issued so far are threaded through a state monad
    that can also raise the Python exceptions the code does not catch.
    Logging is left out: it has no influence on control flow. *)

From Stdlib Require Import QArith Ascii String.
From stdpp Require Import gmap strings list pretty.

Set Warnings "-register-all".

Open Scope Z_scope.

(** ** JSON values as Python sees them

    [response.json()] yields [None], [bool], [int], [str], [list] and [dict]
    values (floats are left out of the model).  A dict is kept as an
    association list read by its first binding of a key.  Strings are byte
    strings; on ASCII text they coincide with Python's [str]. *)

Inductive value : Type :=
| VNone
| VBool (b : bool)
| VInt (z : Z)
| VStr (s : string)
| VList (l : list value)
| VDict (d : list (string * value)).

(** Python truth value: [if v:]. *)
Definition truthy (v : value) : bool :=
  match v with
  | VNone => false
  | VBool b => b
  | VInt z => negb (z =? 0)
  | VStr s => negb (String.eqb s "")
  | VList l => match l with [] => false | _ => true end
  | VDict d => match d with [] => false | _ => true end
  end.

(** [d.get(k)] on the association list of a dict. *)
Fixpoint dict_get (d : list (string * value)) (k : string) : option value :=
  match d with
  | [] => None
  | (k', v) :: d' => if String.eqb k' k then Some v else dict_get d' k
  end.

(** [v == s] for a string literal [s]. *)
Definition py_eq_str (v : value) (s : string) : bool :=
  match v with
  | VStr t => String.eqb t s
  | _ => false
  end.

(** *** Strings: [lower], [in], [startswith], [str] *)

Definition lower_ascii (c : ascii) : ascii :=
  let n := N_of_ascii c in
  if ((65 <=? n) && (n <=? 90))%N then ascii_of_N (n + 32) else c.

(** [s.lower()]: ASCII letters are mapped, every other byte is kept. *)
Fixpoint lower (s : string) : string :=
  match s with
  | EmptyString => EmptyString
  | String c s' => String (lower_ascii c) (lower s')
  end.

(** [hay.startswith(p)]. *)
Fixpoint startswith (hay p : string) {struct p} : bool :=
  match p, hay with
  | EmptyString, _ => true
  | String a p', String b hay' => if Ascii.eqb a b then startswith hay' p' else false
  | String _ _, EmptyString => false
  end.

(** [needle in hay]. *)
Fixpoint contains (needle hay : string) : bool :=
  startswith hay needle ||
  match hay with
  | EmptyString => false
  | String _ hay' => contains needle hay'
  end.

Fixpoint join (sep : string) (l : list string) : string :=
  match l with
  | [] => ""
  | [s] => s
  | s :: l' => s +:+ sep +:+ join sep l'
  end.

Definition hex_digit (n : N) : ascii :=
  if (n <? 10)%N then ascii_of_N (48 + n) else ascii_of_N (87 + n).

(** One character of [repr] of a string quoted with [q]. *)
Definition repr_char (q c : ascii) : string :=
  let n := N_of_ascii c in
  if Ascii.eqb c q || Ascii.eqb c "\" then String "\" (String c "")
  else if (n =? 9)%N then "\t"
  else if (n =? 10)%N then "\n"
  else if (n =? 13)%N then "\r"
  else if ((n <? 32) || (n =? 127))%N
       then String "\" (String "x" (String (hex_digit (n / 16)) (String (hex_digit (n mod 16)) "")))
  else String c "".

Fixpoint concat_map_chars (f : ascii -> string) (s : string) : string :=
  match s with
  | EmptyString => EmptyString
  | String c s' => f c +:+ concat_map_chars f s'
  end.

(** [repr(s)]: single quotes unless the text has a single quote and no
    double quote. *)
Definition dquote : ascii := ascii_of_N 34.

Definition repr_str (s : string) : string :=
  let q : ascii :=
    if contains "'" s && negb (contains (String dquote "") s) then dquote else "'"%char in
  String q (concat_map_chars (repr_char q) s +:+ String q "").

Fixpoint py_repr (v : value) : string :=
  match v with
  | VNone => "None"
  | VBool true => "True"
  | VBool false => "False"
  | VInt z => pretty z
  | VStr s => repr_str s
  | VList l => "[" +:+ join ", " (map py_repr l) +:+ "]"
  | VDict d =>
      "{" +:+ join ", " (map (fun kv => match kv with
                                        | (k, x) => repr_str k +:+ ": " +:+ py_repr x
                                        end) d) +:+ "}"
  end.

(** [str(v)]. *)
Definition py_str (v : value) : string :=
  match v with
  | VStr s => s
  | _ => py_repr v
  end.

(** ** Configuration: the module-level constants read from the environment *)

Record Config : Type := {
  RADARR_URL : option (list string);
  RADARR_API_KEY : option (list string);
  SONARR_URL : option (list string);
  SONARR_API_KEY : option (list string);
  STALLED_TIMEOUT : Z;
  STALLED_ACTION : string;
  RUN_INTERVAL : Z;
  COUNT_DOWNLOADING_METADATA_AS_STALLED : bool
}.

(** ** The world: SQLite table, HTTP trace, oracle

    A timestamp is a number of microseconds since the epoch, the resolution
    of [datetime]; [isoformat] followed by [fromisoformat] is the identity on
    it.  The table [stalled_downloads] is a list of rows, [None] while the
    table has not been created. *)

Record row : Type := {
  download_id : string;
  first_detected : Z;
  arr_service : string
}.

Inductive event : Type :=
| EvGet (url : string) (params : gmap string value)
| EvDelete (url : string) (params : gmap string value)
| EvPost (url : string) (data : value).

(** What [response.json()] raises besides the [JSONDecodeError] of
    [requests]: the [ValueError] of [json] for an integer with too many
    digits, and the [RecursionError] of a body nested too deep.  Neither is
    a [RequestException]. *)
Inductive json_failure : Type :=
| TooManyDigits
| NestedTooDeep.

(** What [requests] gives back: an exception of class [RequestException]
    (no connection, timeout), or a response with a status code.  The body of
    a response parses as JSON to a value, is no JSON ([None]: parsing it
    raises [JSONDecodeError], a [RequestException]), or makes the parser
    fail in one of the two other ways. *)
Inductive http_result : Type :=
| RequestError
| Response (status_code : Z) (json : option value)
| Unparsed (status_code : Z) (failure : json_failure).

(** The oracle is asked with the number of calls made to the outside so far,
    so that the same request may be answered differently later on. *)
Record Env : Type := {
  http_get : nat -> string -> gmap string string -> gmap string value -> http_result;
  http_delete : nat -> string -> gmap string string -> gmap string value -> http_result;
  http_post : nat -> string -> gmap string string -> value -> http_result;
  utcnow : nat -> Z
}.

Record World : Type := {
  db : option (list row);
  trace : list event;
  tick : nat
}.

(** Exceptions that no [except] clause inside the functions catches. *)
Inductive exn : Type :=
| KeyError (k : string)
| AttributeError
| TypeError
| IndexError
| OperationalError
| ValueError
| RecursionError.

Definition exn_of (failure : json_failure) : exn :=
  match failure with
  | TooManyDigits => ValueError
  | NestedTooDeep => RecursionError
  end.

(** [Diverge] stands for a [while True] loop that was still running when the
    fuel of the model ran out. *)
Inductive outcome (A : Type) : Type :=
| Ok (a : A)
| Raise (e : exn)
| Diverge.
Arguments Ok {A} a.
Arguments Raise {A} e.
Arguments Diverge {A}.

Definition M (A : Type) : Type := World -> outcome A * World.

#[global] Instance M_ret : MRet M := fun A a w => (Ok a, w).

#[global] Instance M_bind : MBind M := fun A B f m w =>
  match m w with
  | (Ok a, w') => f a w'
  | (Raise e, w') => (Raise e, w')
  | (Diverge, w') => (Diverge, w')
  end.

Definition raise {A : Type} (e : exn) : M A := fun w => (Raise e, w).

Definition diverge {A : Type} : M A := fun w => (Diverge, w).

(** [for x in l: f(x)]. *)
Fixpoint for_each {A : Type} (f : A -> M unit) (l : list A) : M unit :=
  match l with
  | [] => mret tt
  | x :: l' => f x ;; for_each f l'
  end.

(** The search commands, the deletes and the queue reads of a trace. *)
Definition is_post (e : event) : bool :=
  match e with EvPost _ _ => true | _ => false end.

Definition is_delete (e : event) : bool :=
  match e with EvDelete _ _ => true | _ => false end.


Definition posts (t : list event) : list event := List.filter is_post t.

Definition deletes (t : list event) : list event := List.filter is_delete t.


(** *** Floats

    A [float] is kept as the rational it stands for.  [n / d] on integers
    gives the double nearest to the quotient, ties going to the even
    mantissa.  The doubles are the multiples [m * 2^e / 2^1074] with
    [m < 2^53] and [0 <= e] (subnormal ones have [e = 0]); the quotients the
    program divides are far below the largest double, so that the
    [OverflowError] of the division is left out. *)

(** The integer nearest to [n / d] for [0 <= n] and [0 < d], ties to the
    even one. *)
Definition nearest_even (n d : Z) : Z :=
  let q := n / d in
  let r := n mod d in
  if 2 * r <? d then q
  else if d <? 2 * r then q + 1
  else if Z.even q then q else q + 1.

(** The exponent [e] of the double nearest to [N / d], for [0 < N] and
    [0 < d]: the mantissa is [N / (d * 2^e)] rounded. *)
Definition double_exponent (N d : Z) : Z :=
  let e0 := Z.log2 N - Z.log2 d in
  let f := if (0 <=? e0) && (N <? d * 2 ^ e0) then e0 - 1 else e0 in
  Z.max 0 (f - 52).

(** The double nearest to [n / d], times [2^1074], for [0 < n], [0 < d]. *)
Definition double_scaled (n d : Z) : Z :=
  let N := n * 2 ^ 1074 in
  let e := double_exponent N d in
  nearest_even N (d * 2 ^ e) * 2 ^ e.

(** [n / d] for two [int]s, [d] positive. *)
Definition true_div (n : Z) (d : positive) : Q :=
  match n with
  | 0 => 0 # 1
  | Zpos _ => double_scaled n (Zpos d) # Z.to_pos (2 ^ 1074)
  | Zneg p => - double_scaled (Zpos p) (Zpos d) # Z.to_pos (2 ^ 1074)
  end.

(** [timedelta.total_seconds()]: the microseconds divided by [10**6]. *)
Definition total_seconds (microseconds : Z) : Q := true_div microseconds 1000000.

(** [x > n] for a number of seconds [x] and an [int] [n]. *)
Definition gt_int (x : Q) (n : Z) : bool := negb (Qle_bool x (inject_Z n)).

(** [response.raise_for_status()] raises [HTTPError] on 4xx and 5xx. *)
Definition raises_for_status (status_code : Z) : bool :=
  (400 <=? status_code) && (status_code <? 600).

(** [all_records.extend(v)]: the elements [v] yields when iterated. *)
Fixpoint chars (s : string) : list value :=
  match s with
  | EmptyString => []
  | String c s' => VStr (String c "") :: chars s'
  end.

Definition py_iter (v : value) : option (list value) :=
  match v with
  | VList l => Some l
  | VStr s => Some (chars s)
  | VDict d => Some (map (fun kv => VStr (fst kv)) d)
  | _ => None
  end.

(** [n >= v] for an [int] [n]; [None] is a [TypeError]. *)
Definition int_ge (n : Z) (v : value) : option bool :=
  match v with
  | VInt z => Some (z <=? n)
  | VBool b => Some ((if b then 1 else 0) <=? n)
  | _ => None
  end.

Definition same_key (id svc : string) (r : row) : bool :=
  String.eqb (download_id r) id && String.eqb (arr_service r) svc.

Definition set_db (t : option (list row)) (w : World) : World :=
  {| db := t; trace := trace w; tick := tick w |}.

(** One call to the outside: the oracle is asked, the request is logged. *)
Definition call_out (w : World) (e : list event) : World :=
  {| db := db w; trace := trace w ++ e; tick := S (tick w) |}.

(** The URLs, query parameters, headers and command bodies the program
    builds. *)
Definition queue_url (base_url api_version : string) : string :=
  base_url +:+ "/api/" +:+ api_version +:+ "/queue".

Definition action_url (base_url api_version id : string) : string :=
  base_url +:+ "/api/" +:+ api_version +:+ "/queue/" +:+ id.

Definition command_url (base_url api_version : string) : string :=
  base_url +:+ "/api/" +:+ api_version +:+ "/command".

Definition api_headers (api_key : string) : gmap string string :=
  {["X-Api-Key" := api_key]}.

Definition queue_params (service_name : string) (metadata_check : bool)
  : gmap string value :=
  let status_filter := if metadata_check then "queued" else "warning" in
  <["includeEpisode" :=
      VStr (if startswith service_name "Sonarr" then "true" else "false")]>
    (<["status" := VStr status_filter]> (<["protocol" := VStr "torrent"]> ∅)).

Definition paginated (params : option (gmap string value)) (page page_size : Z)
  : gmap string value :=
  <["pageSize" := VInt page_size]> (<["page" := VInt page]> (default ∅ params)).

Definition blocklist_params : gmap string value :=
  <["skipRedownload" := VStr "false"]> (<["blocklist" := VStr "true"]> ∅).

Definition episode_search (episode_ids : value) : value :=
  VDict [("name", VStr "EpisodeSearch"); ("episodeIds", episode_ids)].

Definition series_search (series_id : value) : value :=
  VDict [("name", VStr "SeriesSearch"); ("seriesId", series_id)].

Definition movies_search (movie_id : value) : value :=
  VDict [("name", VStr "MoviesSearch"); ("movieIds", VList [movie_id])].

Section Program.

Variable cfg : Config.
Variable env : Env.

(** *** The tracking store *)

Definition initialize_database : M unit := fun w =>
  if STALLED_TIMEOUT cfg =? 0 then (Ok tt, w)
  else match db w with
       | Some _ => (Ok tt, w)
       | None => (Ok tt, set_db (Some []) w)
       end.

Definition get_stalled_downloads_from_db (service : string) : M (gmap string Z) :=
  fun w =>
    match db w with
    | None => (Raise OperationalError, w)
    | Some t =>
        let rows := List.filter (fun r => String.eqb (arr_service r) service) t in
        (Ok (foldl (fun m r => <[download_id r := first_detected r]> m) ∅ rows), w)
    end.

Definition add_stalled_download_to_db (id : string) (detected : Z) (service : string)
  : M bool := fun w =>
    match db w with
    | None => (Raise OperationalError, w)
    | Some t =>
        if existsb (same_key id service) t then (Ok false, w)
        else (Ok true,
              set_db (Some (t ++ [{| download_id := id; first_detected := detected;
                                     arr_service := service |}])) w)
    end.

Definition remove_stalled_download_from_db (id service : string) : M unit := fun w =>
  match db w with
  | None => (Raise OperationalError, w)
  | Some t => (Ok tt, set_db (Some (List.filter (fun r => negb (same_key id service r)) t)) w)
  end.

(** *** HTTP helpers *)

Definition requests_get (url : string) (headers : gmap string string)
    (params : gmap string value) : M http_result := fun w =>
  (Ok (http_get env (tick w) url headers params), call_out w [EvGet url params]).

Definition requests_delete (url : string) (headers : gmap string string)
    (params : gmap string value) : M http_result := fun w =>
  (Ok (http_delete env (tick w) url headers params), call_out w [EvDelete url params]).

Definition requests_post (url : string) (headers : gmap string string)
    (data : value) : M http_result := fun w =>
  (Ok (http_post env (tick w) url headers data), call_out w [EvPost url data]).

Definition datetime_now : M Z := fun w => (Ok (utcnow env (tick w)), call_out w []).

(** Returns the parsed body, or [None] after a [RequestException]: no
    answer, a 4xx or 5xx status, or a body that is no JSON (the
    [JSONDecodeError] of [requests] is a [RequestException]).  The other
    failures of [response.json()] are not caught. *)
Definition query_api (url : string) (headers : gmap string string)
    (params : gmap string value) : M value :=
  r ← requests_get url headers params;
  match r with
  | RequestError => mret VNone
  | Response code body =>
      if raises_for_status code then mret VNone
      else match body with
           | Some v => mret v
           | None => mret VNone
           end
  | Unparsed code failure =>
      if raises_for_status code then mret VNone
      else raise (exn_of failure)
  end.

Definition post_api (url : string) (headers : gmap string string) (data : value)
  : M unit :=
  requests_post url headers data ;; mret tt.

Definition delete_api (url : string) (headers : gmap string string)
    (params : gmap string value) : M bool :=
  r ← requests_delete url headers params;
  match r with
  | RequestError => mret false
  | Response code _ | Unparsed code _ =>
      if code =? 404 then mret false
      else if raises_for_status code then mret false
      else mret true
  end.

(** The [while True] loop of [query_api_paginated], entered with the
    current values of [all_records], [page] and [total_records]. *)
Fixpoint query_api_paginated_loop (fuel : nat) (base_url : string)
    (headers : gmap string string) (params : option (gmap string value))
    (page_size : Z) (all_records : list value) (page : Z) (total_records : value)
  : M (list value) :=
  match fuel with
  | O => diverge
  | S fuel' =>
      let paginated_params := paginated params page page_size in
      response ← query_api base_url headers paginated_params;
      match response with
      | VDict d =>
          if negb (truthy response) then mret all_records
          else match dict_get d "records" with
               | None => mret all_records
               | Some records =>
                   let total_records := default total_records (dict_get d "totalRecords") in
                   if negb (truthy records) then mret all_records
                   else match py_iter records with
                        | None => raise TypeError
                        | Some more =>
                            let all_records := all_records ++ more in
                            if truthy total_records then
                              match int_ge (Z.of_nat (length all_records)) total_records with
                              | None => raise TypeError
                              | Some true => mret all_records
                              | Some false =>
                                  query_api_paginated_loop fuel' base_url headers params
                                    page_size all_records (page + 1) total_records
                              end
                            else
                              query_api_paginated_loop fuel' base_url headers params
                                page_size all_records (page + 1) total_records
                        end
               end
      | _ => mret all_records
      end
  end.

Definition query_api_paginated (fuel : nat) (base_url : string)
    (headers : gmap string string) (params : option (gmap string value))
    (page_size : Z) : M (list value) :=
  query_api_paginated_loop fuel base_url headers params page_size [] 1 VNone.

(** *** Remediation *)

Definition perform_action (base_url : string) (headers : gmap string string)
    (id : string) (movie_id : value) (service_name api_version : string)
    (episode_ids series_id : value) : M unit :=
  success ← delete_api (action_url base_url api_version id) headers blocklist_params;
  if negb success && negb (String.eqb (STALLED_ACTION cfg) "REMOVE") then mret tt
  else if String.eqb (STALLED_ACTION cfg) "BLOCKLIST_AND_SEARCH" then
    if startswith service_name "Sonarr" then
      if truthy episode_ids then
        post_api (command_url base_url api_version) headers (episode_search episode_ids)
      else if truthy series_id then
        post_api (command_url base_url api_version) headers (series_search series_id)
      else mret tt
    else if startswith service_name "Radarr" && truthy movie_id then
      post_api (command_url base_url api_version) headers (movies_search movie_id)
    else mret tt
  else mret tt.

(** *** The body of the loop over the queue records *)

(** [item.get(k)] and [item.get(k, dflt)]; a record that is not a dict has
    no [get]. *)
Definition item_get (item : value) (k : string) (dflt : value) : outcome value :=
  match item with
  | VDict d => Ok (default dflt (dict_get d k))
  | _ => Raise AttributeError
  end.

(** [item.get("errorMessage", "").lower()]. *)
Definition error_msg (item : value) : outcome string :=
  match item_get item "errorMessage" (VStr "") with
  | Ok (VStr s) => Ok (lower s)
  | Ok _ => Raise AttributeError
  | Raise e => Raise e
  | Diverge => Diverge
  end.

(** The value of [is_target] when line 213 is reached. *)
Definition is_target (metadata_check : bool) (item : value) : outcome bool :=
  match error_msg item with
  | Ok msg =>
      if metadata_check then Ok (contains "downloading metadata" msg)
      else
        match item_get item "status" VNone with
        | Ok status =>
            Ok (contains "stalled" msg || contains "connection" msg
                || py_eq_str status "warning")
        | Raise e => Raise e
        | Diverge => Diverge
        end
  | Raise e => Raise e
  | Diverge => Diverge
  end.

(** [k in item and item[k]]. *)
Definition has_truthy (d : list (string * value)) (k : string) : bool :=
  match dict_get d k with
  | Some v => truthy v
  | None => false
  end.

(** Lines 221 to 226: the episodes of a record. *)
Definition episode_ids_of (d : list (string * value)) : value :=
  if has_truthy d "episodeId" then VList [default VNone (dict_get d "episodeId")]
  else if has_truthy d "episodeIds" then default VNone (dict_get d "episodeIds")
  else VNone.

Definition lift {A : Type} (o : outcome A) : M A := fun w => (o, w).

Definition check_item (base_url : string) (headers : gmap string string)
    (service_name api_version : string) (metadata_check : bool)
    (db_stalled : gmap string Z) (item : value) : M unit :=
  target ← lift (is_target metadata_check item);
  if negb target then mret tt
  else
    match item with
    | VDict d =>
        match dict_get d "id" with
        | None => raise (KeyError "id")
        | Some raw_id =>
            let id := py_str raw_id in
            let movie_id := default VNone (dict_get d "movieId") in
            let series_id := default VNone (dict_get d "seriesId") in
            let episode_ids := episode_ids_of d in
            match db_stalled !! id with
            | Some detected =>
                now ← datetime_now;
                let elapsed := total_seconds (now - detected) in
                if gt_int elapsed (STALLED_TIMEOUT cfg) then
                  perform_action base_url headers id movie_id service_name api_version
                    episode_ids series_id ;;
                  remove_stalled_download_from_db id service_name
                else mret tt
            | None =>
                now ← datetime_now;
                add_stalled_download_to_db id now service_name ;; mret tt
            end
        end
    | _ => raise AttributeError
    end.

(** *** One cycle for one backend instance *)

Definition page_size_default : Z := 50.

Definition check_queue_and_act (fuel : nat) (base_url api_key service_name
    api_version : string) (metadata_check : bool) : M unit :=
  let params := queue_params service_name metadata_check in
  let headers := api_headers api_key in
  records ← query_api_paginated fuel (queue_url base_url api_version) headers
              (Some params) page_size_default;
  match records with
  | [] => mret tt
  | _ :: _ =>
      db_stalled ← get_stalled_downloads_from_db service_name;
      for_each (check_item base_url headers service_name api_version metadata_check
                  db_stalled) records
  end.

(** *** The main loop *)

(** [keys[i]] for a list that may be [None]. *)
Definition api_key_at (keys : option (list string)) (i : nat) : M string :=
  match keys with
  | None => raise TypeError
  | Some l => match l !! i with
              | Some k => mret k
              | None => raise IndexError
              end
  end.

(** [for i, url in enumerate(urls)], from index [i] on. *)
Fixpoint sweep_service (fuel : nat) (name : string) (keys : option (list string))
    (i : nat) (urls : list string) : M unit :=
  match urls with
  | [] => mret tt
  | url :: urls' =>
      key ← api_key_at keys i;
      check_queue_and_act fuel url key (name +:+ pretty i) "v3" false ;;
      (if COUNT_DOWNLOADING_METADATA_AS_STALLED cfg then
         key' ← api_key_at keys i;
         check_queue_and_act fuel url key' (name +:+ pretty i) "v3" true
       else mret tt) ;;
      sweep_service fuel name keys (S i) urls'
  end.

(** One pass of the body of [while True], up to the sleep. *)
Definition sweep (fuel : nat) : M unit :=
  sweep_service fuel "Radarr" (RADARR_API_KEY cfg) 0 (default [] (RADARR_URL cfg)) ;;
  sweep_service fuel "Sonarr" (SONARR_API_KEY cfg) 0 (default [] (SONARR_URL cfg)).

Fixpoint sweeps (fuel : nat) (n : nat) : M unit :=
  match n with
  | O => mret tt
  | S n' => sweep fuel ;; sweeps fuel n'
  end.

(** The first [n] passes of the program. *)
Definition main (fuel : nat) (n : nat) : M unit :=
  initialize_database ;; sweeps fuel n.

End Program.

(** The state the program starts from on a machine without a database file. *)
Definition fresh : World := {| db := None; trace := []; tick := 0 |}.

(** ** Notions used by the statements *)

(** [needle] occurs in [hay]. *)
Definition Substring (needle hay : string) : Prop :=
  exists pre post : string, hay = pre +:+ needle +:+ post.

Definition key_of (r : row) : string * string := (download_id r, arr_service r).

(** The primary key of the table: no two rows with the same pair. *)
Definition unique_keys (t : list row) : Prop := NoDup (map key_of t).

Definition db_inv (w : World) : Prop :=
  match db w with
  | Some t => unique_keys t
  | None => True
  end.

(** A computation that keeps the primary key of the table. *)
Definition keeps_inv {A : Type} (m : M A) : Prop :=
  forall (w : World) (r : outcome A) (w' : World), db_inv w -> m w = (r, w') -> db_inv w'.

(** The dict that [get_stalled_downloads_from_db] builds from a table. *)
Definition snapshot (service : string) (t : list row) : gmap string Z :=
  foldl (fun m r => <[download_id r := first_detected r]> m) ∅
        (List.filter (fun r => String.eqb (arr_service r) service) t).

(** The table after [remove_stalled_download_from_db]. *)
Definition without (id service : string) (t : list row) : list row :=
  List.filter (fun r => negb (same_key id service r)) t.

(** What [delete_api] returns for an answer of the backend. *)
Definition delete_ok (r : http_result) : bool :=
  match r with
  | RequestError => false
  | Response code _ | Unparsed code _ =>
      negb (code =? 404) && negb (raises_for_status code)
  end.

(** A delete that failed for a reason other than a 404 answer. *)
Definition delete_failed (r : http_result) : Prop :=
  match r with
  | RequestError => True
  | Response code _ | Unparsed code _ => code <> 404 /\ raises_for_status code = true
  end.

(** How [query_api] ends for an answer of the backend. *)
Definition json_of (r : http_result) : outcome value :=
  match r with
  | RequestError => Ok VNone
  | Response code body =>
      if raises_for_status code then Ok VNone else Ok (default VNone body)
  | Unparsed code failure =>
      if raises_for_status code then Ok VNone else Raise (exn_of failure)
  end.

(** An answer on which the fetch loop breaks at its first test: nothing came
    back, or something that is no dict or has no records. *)
Definition malformed (response : value) : Prop :=
  match response with
  | VDict d => d = [] \/ dict_get d "records" = None
  | _ => True
  end.

(** The requests of [n] rounds of the fetch loop that start at [page]. *)
Fixpoint page_requests (url : string) (params : option (gmap string value))
    (page_size page : Z) (n : nat) : list event :=
  match n with
  | O => []
  | S n' =>
      EvGet url (paginated params page page_size)
        :: page_requests url params page_size (page + 1) n'
  end.

(** The seconds between the first detection and the reading of the clock
    that [check_item] makes in world [w]. *)
Definition elapsed_at (env : Env) (w : World) (detected : Z) : Q :=
  total_seconds (utcnow env (tick w) - detected).

(** ** Concrete records, configurations, backends and stores *)

(** A stalled Radarr record: download 42 of movie 7. *)
Definition stalled_record : list (string * value) :=
  [("id", VInt 42); ("status", VStr "warning"); ("movieId", VInt 7);
   ("errorMessage", VStr "The download is Stalled with no connections")].


(** A stalled record that carries no id. *)
Definition nameless_record : list (string * value) :=
  [("status", VStr "warning"); ("errorMessage", VStr "stalled")].

(** A Sonarr record of a download that covers episodes 10 and 11 of
    series 5. *)
Definition sonarr_record : list (string * value) :=
  [("id", VInt 77); ("status", VStr "warning"); ("seriesId", VInt 5);
   ("episodeIds", VList [VInt 10; VInt 11]); ("errorMessage", VStr "stalled")].

(** A Sonarr record of a season pack: no episode, series 5. *)
Definition sonarr_pack_record : list (string * value) :=
  [("id", VInt 78); ("status", VStr "warning"); ("seriesId", VInt 5);
   ("errorMessage", VStr "stalled")].

(** Records numbered from 1 to [n]. *)
Definition numbered (n : nat) : list value :=
  map (fun i => VDict [("id", VInt (Z.of_nat i)); ("status", VStr "warning")]) (seq 1 n).

Definition radarr_base : string := "http://radarr:7878".
Definition sonarr_base : string := "http://sonarr:8989".

(** One Radarr instance and no Sonarr instance. *)
Definition radarr_only (timeout : Z) (action : string) : Config :=
  {| RADARR_URL := Some [radarr_base];
     RADARR_API_KEY := Some ["key"];
     SONARR_URL := None;
     SONARR_API_KEY := None;
     STALLED_TIMEOUT := timeout;
     STALLED_ACTION := action;
     RUN_INTERVAL := 300;
     COUNT_DOWNLOADING_METADATA_AS_STALLED := false |}.

Definition search_config : Config := radarr_only 900 "BLOCKLIST_AND_SEARCH".

(** STALLED_TIMEOUT set to 0. *)
Definition no_debounce : Config := radarr_only 0 "BLOCKLIST_AND_SEARCH".


(** A backend whose queue holds [items] on a single page, which answers
    every delete with [del] and accepts every command; the clock shows
    [now]. *)
Definition backend (items : list value) (del : http_result) (now : Z) : Env :=
  {| http_get := fun _ _ _ _ =>
       Response 200 (Some (VDict [("records", VList items);
                                  ("totalRecords", VInt (Z.of_nat (length items)))]));
     http_delete := fun _ _ _ _ => del;
     http_post := fun _ _ _ _ => Response 201 None;
     utcnow := fun _ => now |}.

(** Radarr backends that hold the stalled record 42 and answer the delete
    with 500, 404 and 200; the clock shows 905 seconds. *)
Definition env_500 : Env := backend [VDict stalled_record] (Response 500 None) 905000000.
Definition env_404 : Env := backend [VDict stalled_record] (Response 404 None) 905000000.
Definition env_200 : Env := backend [VDict stalled_record] (Response 200 None) 905000000.

(** The same backend with the clock at exactly 900 seconds. *)
Definition env_at_900 : Env := backend [VDict stalled_record] (Response 200 None) 900000000.


(** A Sonarr backend that deletes what it is asked to. *)
Definition env_sonarr : Env := backend [VDict sonarr_record] (Response 200 None) 905000000.


(** A backend that cannot be reached. *)
Definition env_down : Env :=
  {| http_get := fun _ _ _ _ => RequestError;
     http_delete := fun _ _ _ _ => RequestError;
     http_post := fun _ _ _ _ => RequestError;
     utcnow := fun _ => 0 |}.

(** The slice of [items] that is page number [page]. *)
Definition page_of (items : list value) (page page_size : Z) : list value :=
  firstn (Z.to_nat page_size) (skipn (Z.to_nat ((page - 1) * page_size)) items).

Definition page_answer (items : list value) (page page_size : Z)
  : list (string * value) :=
  [("page", VInt page); ("pageSize", VInt page_size);
   ("records", VList (page_of items page page_size));
   ("totalRecords", VInt (Z.of_nat (length items)))].

(** A backend that serves a queue of [items] page by page, as asked, and
    reports how many there are. *)
Definition paged_backend (items : list value) : Env :=
  {| http_get := fun _ _ _ params =>
       match params !! "page", params !! "pageSize" with
       | Some (VInt p), Some (VInt s) => Response 200 (Some (VDict (page_answer items p s)))
       | _, _ => Response 400 None
       end;
     http_delete := fun _ _ _ _ => Response 200 None;
     http_post := fun _ _ _ _ => Response 201 None;
     utcnow := fun _ => 0 |}.

(** The world after the three requests that fetch a queue of 120 records. *)
Definition three_pages (url : string) (params : option (gmap string value))
    (w : World) : World :=
  call_out (call_out (call_out w [EvGet url (paginated params 1 50)])
              [EvGet url (paginated params 2 50)])
    [EvGet url (paginated params 3 50)].

(** The table exists and is empty. *)
Definition empty_store : World := {| db := Some []; trace := []; tick := 0 |}.

Definition row_42 : row :=
  {| download_id := "42"; first_detected := 0; arr_service := "Radarr0" |}.

(** A store in which download 42 of Radarr0 was first seen at time 0. *)
Definition tracked_42 : World := {| db := Some [row_42]; trace := []; tick := 0 |}.



(** A configuration that only removes. *)
Definition remove_config : Config := radarr_only 900 "REMOVE".

(** A Lidarr instance name: neither Sonarr nor Radarr. *)
Definition lidarr_name : string := "Lidarr0".


Definition is_dict (item : value) : Prop :=
  match item with
  | VDict _ => True
  | _ => False
  end.

Definition is_str (v : value) : Prop :=
  match v with
  | VStr _ => True
  | _ => False
  end.

(** The first request of a cycle. *)
Definition first_poll (base_url api_version service_name : string)
    (metadata_check : bool) : event :=
  EvGet (queue_url base_url api_version)
    (paginated (Some (queue_params service_name metadata_check)) 1 page_size_default).

(** A record whose error message is null. *)
Definition null_message_record : list (string * value) :=
  [("id", VInt 9); ("status", VStr "warning"); ("errorMessage", VNone)].

(** A backend with an empty queue. *)
Definition env_idle : Env := backend [] (Response 200 None) 0.

(** The key of a record of the fetched list, for the service of the cycle. *)
Definition fetched_key (service : string) (records : list value)
    (k : string * string) : Prop :=
  exists (d : list (string * value)) (raw : value),
    In (VDict d) records /\ dict_get d "id" = Some raw /\ k = (py_str raw, service).

(** A store with a row of another instance and a row of a download that
    left the queue. *)
Definition row_sonarr : row :=
  {| download_id := "42"; first_detected := 3; arr_service := "Sonarr0" |}.

Definition row_gone : row :=
  {| download_id := "17"; first_detected := 1; arr_service := "Radarr0" |}.

Definition mixed_store : World :=
  {| db := Some [row_sonarr; row_gone; row_42]; trace := []; tick := 0 |}.

(** A computation that, started with the table in place, keeps it in place
    and does not end with the error of a missing table. *)
Definition table_safe {A : Type} (m : M A) : Prop :=
  forall (w : World) (r : outcome A) (w' : World),
    db w <> None -> m w = (r, w') -> db w' <> None /\ r <> Raise OperationalError.

(** The first requests of the cycles of a sweep over the instances [urls] of
    one kind, numbered from [i]: the stalled check and, when the flag is
    set, the metadata check of each instance in turn. *)
Fixpoint polls (flag : bool) (name : string) (i : nat) (urls : list string)
  : list event :=
  match urls with
  | [] => []
  | url :: urls' =>
      first_poll url "v3" (name +:+ pretty i) false
        :: (if flag then [first_poll url "v3" (name +:+ pretty i) true] else [])
        ++ polls flag name (S i) urls'
  end.

(** ** The lists of the configuration

    [os.getenv(name).split(",") if os.getenv(name) else None], for the value
    [v] of the variable, [None] when it is not set. *)

(** [s.split(",")]. *)
Fixpoint split_comma (s : string) : list string :=
  match s with
  | EmptyString => [EmptyString]
  | String c s' =>
      if Ascii.eqb c "," then EmptyString :: split_comma s'
      else match split_comma s' with
           | [] => [String c EmptyString]
           | h :: t => String c h :: t
           end
  end.

Definition load_list (v : option string) : option (list string) :=
  match v with
  | Some s => if String.eqb s "" then None else Some (split_comma s)
  | None => None
  end.

(** The number of commas of a string. *)
Fixpoint commas (s : string) : nat :=
  match s with
  | EmptyString => O
  | String c s' => if Ascii.eqb c "," then S (commas s') else commas s'
  end.

(** Two instances with their keys, as the variables give them. *)
Definition urls_value : string := "http://radarr-a:7878,http://radarr-b:7878".
Definition keys_value : string := "key-a,key-b".

(** Radarr instances without any key. *)
Definition keyless : Config :=
  {| RADARR_URL := load_list (Some urls_value);
     RADARR_API_KEY := load_list None;
     SONARR_URL := None;
     SONARR_API_KEY := None;
     STALLED_TIMEOUT := 900;
     STALLED_ACTION := "BLOCKLIST_AND_SEARCH";
     RUN_INTERVAL := 300;
     COUNT_DOWNLOADING_METADATA_AS_STALLED := true |}.

(** Two Radarr instances and a Sonarr instance, with the metadata check. *)
Definition three_instances : Config :=
  {| RADARR_URL := load_list (Some urls_value);
     RADARR_API_KEY := load_list (Some keys_value);
     SONARR_URL := load_list (Some sonarr_base);
     SONARR_API_KEY := load_list (Some "key-s");
     STALLED_TIMEOUT := 900;
     STALLED_ACTION := "BLOCKLIST_AND_SEARCH";
     RUN_INTERVAL := 300;
     COUNT_DOWNLOADING_METADATA_AS_STALLED := true |}.

(** A backend that always has one more record and never says how many
    there are. *)
Definition env_endless : Env :=
  {| http_get := fun _ _ _ _ => Response 200 (Some (VDict [("records",
                                                           VList [VDict stalled_record])]));
     http_delete := fun _ _ _ _ => Response 200 None;
     http_post := fun _ _ _ _ => Response 201 None;
     utcnow := fun _ => 0 |}.

(** A backend whose answer holds a number where the records should be. *)
Definition env_broken : Env :=
  {| http_get := fun _ _ _ _ => Response 200 (Some (VDict [("records", VInt 5)]));
     http_delete := fun _ _ _ _ => Response 200 None;
     http_post := fun _ _ _ _ => Response 201 None;
     utcnow := fun _ => 0 |}.

(** The small ASCII letters with their capitals. *)
Definition letters : list (ascii * ascii) :=
  [("a", "A"); ("b", "B"); ("c", "C"); ("d", "D"); ("e", "E"); ("f", "F");
   ("g", "G"); ("h", "H"); ("i", "I"); ("j", "J"); ("k", "K"); ("l", "L");
   ("m", "M"); ("n", "N"); ("o", "O"); ("p", "P"); ("q", "Q"); ("r", "R");
   ("s", "S"); ("t", "T"); ("u", "U"); ("v", "V"); ("w", "W"); ("x", "X");
   ("y", "Y"); ("z", "Z")]%char.

(** The same character up to the case of a letter. *)
Definition same_letter (a b : ascii) : Prop :=
  a = b \/ In (a, b) letters \/ In (b, a) letters.

Fixpoint same_letters (s s' : string) : Prop :=
  match s, s' with
  | EmptyString, EmptyString => True
  | String a s, String b s' => same_letter a b /\ same_letters s s'
  | _, _ => False
  end.

(** Two records of a download that is still running, with the same message
    in two letter cases. *)
Definition quiet_record : list (string * value) :=
  [("id", VInt 42); ("status", VStr "downloading"); ("movieId", VInt 7);
   ("errorMessage", VStr "the connection was lost")].

Definition shouted_record : list (string * value) :=
  [("id", VInt 42); ("status", VStr "downloading"); ("movieId", VInt 7);
   ("errorMessage", VStr "The CONNECTION was Lost")].

(** A STALLED_TIMEOUT of 2^34 seconds, and the backend of record 42 with
    the clock one microsecond past it. *)
Definition long_timeout : Config := radarr_only (2 ^ 34) "BLOCKLIST_AND_SEARCH".

Definition env_past_long : Env :=
  backend [VDict stalled_record] (Response 200 None) (2 ^ 34 * 1000000 + 1).

(** The backend of record 42 with the clock one microsecond past 900
    seconds. *)
Definition env_just_past : Env :=
  backend [VDict stalled_record] (Response 200 None) 900000001.

(** A store in which the downloads 77 and 78 of Sonarr0 were first seen at
    time 0. *)
Definition row_77 : row :=
  {| download_id := "77"; first_detected := 0; arr_service := "Sonarr0" |}.

Definition row_78 : row :=
  {| download_id := "78"; first_detected := 0; arr_service := "Sonarr0" |}.

Definition tracked_sonarr : World :=
  {| db := Some [row_77; row_78]; trace := []; tick := 0 |}.

(** A backend that, from world [w] on, answers the requests for the pages
    1, 2 and 3 of 50 records with the slices of [items] and reports 120
    records in all. *)
Definition serves_pages (env : Env) (items : list value) (url : string)
    (headers : gmap string string) (params : option (gmap string value))
    (w : World) : Prop :=
  forall k : nat,
    (k < 3)%nat ->
    exists (code : Z) (d : list (string * value)),
      http_get env (k + tick w) url headers (paginated params (Z.of_nat k + 1) 50)
      = Response code (Some (VDict d))
      /\ raises_for_status code = false
      /\ dict_get d "records" = Some (VList (page_of items (Z.of_nat k + 1) 50))
      /\ dict_get d "totalRecords" = Some (VInt 120).


(** * Properties *)

(** ** Substrings *)

Lemma append_cons (c : ascii) (s t : string) : String c s +:+ t = String c (s +:+ t).
Proof. reflexivity. Qed.

Lemma startswith_spec (p hay : string) :
  startswith hay p = true <-> exists post : string, hay = p +:+ post.
Proof.
  revert hay. induction p as [|a p IH]; intros hay; simpl.
  - split; [intros _; exists hay; reflexivity | reflexivity].
  - destruct hay as [|b hay].
    + split; [discriminate | intros [post H]; discriminate].
    + destruct (Ascii.eqb a b) eqn:E.
      * apply Ascii.eqb_eq in E. subst b. rewrite IH.
        split; intros [post H]; exists post; rewrite append_cons in *; congruence.
      * apply Ascii.eqb_neq in E.
        split; [discriminate | intros [post H]; rewrite append_cons in H; congruence].
Qed.

Lemma contains_spec (needle hay : string) :
  contains needle hay = true <-> Substring needle hay.
Proof.
  induction hay as [|c hay IH].
  - simpl. rewrite orb_false_r, startswith_spec. split.
    + intros [post H]. exists EmptyString, post. exact H.
    + intros [pre [post H]]. destruct pre; [exists post; exact H | discriminate].
  - cbn [contains]. rewrite orb_true_iff, startswith_spec, IH. split.
    + intros [[post H] | [pre [post H]]].
      * exists EmptyString, post. exact H.
      * exists (String c pre), post. rewrite append_cons, H. reflexivity.
    + intros [pre [post H]]. destruct pre as [|c' pre].
      * left. exists post. exact H.
      * right. exists pre, post. rewrite append_cons in H. congruence.
Qed.

(** ** The tracking store *)

Lemma same_key_spec (id svc : string) (r : row) :
  same_key id svc r = true <-> key_of r = (id, svc).
Proof.
  unfold same_key, key_of. rewrite andb_true_iff, !String.eqb_eq.
  split; [intros [-> ->]; reflexivity | intros H; inversion H; auto].
Qed.

Lemma existsb_same_key (id svc : string) (t : list row) :
  existsb (same_key id svc) t = true <-> (id, svc) ∈ map key_of t.
Proof.
  rewrite existsb_exists, list_elem_of_In, in_map_iff.
  split; intros [r [H1 H2]]; exists r.
  - apply same_key_spec in H2. auto.
  - split; [exact H2 | apply same_key_spec; exact H1].
Qed.

Lemma unique_keys_add (t : list row) (id svc : string) (fd : Z) :
  unique_keys t -> existsb (same_key id svc) t = false ->
  unique_keys (t ++ [{| download_id := id; first_detected := fd; arr_service := svc |}]).
Proof.
  unfold unique_keys. intros Hu He. rewrite map_app. apply NoDup_app.
  split; [exact Hu | split].
  - intros k Hk Hk'. simpl in Hk'. apply list_elem_of_singleton in Hk'. subst k.
    change (key_of _) with (id, svc) in Hk.
    apply existsb_same_key in Hk. congruence.
  - simpl. apply NoDup_singleton.
Qed.

Lemma unique_keys_filter (f : row -> bool) (t : list row) :
  unique_keys t -> unique_keys (List.filter f t).
Proof.
  unfold unique_keys. induction t as [|r t IH]; simpl; intros Hu; [exact Hu|].
  apply NoDup_cons in Hu. destruct Hu as [Hn Hu].
  destruct (f r); simpl; [apply NoDup_cons; split|]; auto.
  intros Hin. apply Hn. apply list_elem_of_In, in_map_iff in Hin.
  destruct Hin as [r' [Hk Hr']]. apply filter_In in Hr'.
  apply list_elem_of_In, in_map_iff. exists r'. tauto.
Qed.

Lemma find_append {A : Type} (f : A -> bool) (l1 l2 : list A) :
  find f (l1 ++ l2) = match find f l1 with Some x => Some x | None => find f l2 end.
Proof.
  induction l1 as [|x l1 IH]; simpl; [reflexivity|].
  destruct (f x); [reflexivity | exact IH].
Qed.

Lemma foldl_insert_lookup (rows : list row) (m : gmap string Z) (id : string) :
  foldl (fun m r => <[download_id r := first_detected r]> m) m rows !! id =
  match List.find (fun r => String.eqb (download_id r) id) (rev rows) with
  | Some r => Some (first_detected r)
  | None => m !! id
  end.
Proof.
  revert m. induction rows as [|r rows IH]; intros m; simpl; [reflexivity|].
  rewrite IH. rewrite find_append.
  destruct (find _ (rev rows)); [reflexivity|]. simpl.
  destruct (String.eqb (download_id r) id) eqn:E.
  - apply String.eqb_eq in E. subst id. apply lookup_insert_eq.
  - apply String.eqb_neq in E. apply lookup_insert_ne. exact E.
Qed.

Lemma snapshot_absent (service id : string) (t : list row) :
  existsb (same_key id service) t = false -> snapshot service t !! id = None.
Proof.
  intros He. unfold snapshot. rewrite foldl_insert_lookup.
  destruct (find _ _) as [r|] eqn:F; [|apply lookup_empty].
  apply find_some in F. destruct F as [Hin Hid].
  apply in_rev, filter_In in Hin. destruct Hin as [Hin Hs].
  assert (existsb (same_key id service) t = true); [|congruence].
  apply existsb_exists. exists r. split; [exact Hin|].
  unfold same_key. rewrite Hid, Hs. reflexivity.
Qed.

Lemma snapshot_present (service : string) (t : list row) (r : row) :
  unique_keys t -> In r t -> arr_service r = service ->
  snapshot service t !! download_id r = Some (first_detected r).
Proof.
  intros Hu Hin Hs. unfold snapshot. rewrite foldl_insert_lookup.
  destruct (find _ _) as [r'|] eqn:F.
  - apply find_some in F. destruct F as [Hin' Hid].
    apply in_rev, filter_In in Hin'. destruct Hin' as [Hin' Hs'].
    apply String.eqb_eq in Hid, Hs'.
    assert (r' = r); [|congruence].
    assert (Hk : key_of r' = key_of r) by (unfold key_of; congruence).
    clear -Hu Hin Hin' Hk. unfold unique_keys in Hu.
    induction t as [|x t IH]; [destruct Hin|].
    simpl in Hu. apply NoDup_cons in Hu. destruct Hu as [Hn Hu].
    destruct Hin as [->|Hin], Hin' as [->|Hin']; auto.
    + exfalso. apply Hn. rewrite <- Hk. apply list_elem_of_In, in_map. exact Hin'.
    + exfalso. apply Hn. rewrite Hk. apply list_elem_of_In, in_map. exact Hin.
  - exfalso. eapply find_none in F.
    + rewrite String.eqb_refl in F. discriminate.
    + apply (proj1 (in_rev _ _)), filter_In.
      split; [exact Hin | apply String.eqb_eq; exact Hs].
Qed.

Lemma add_present (w : World) (t : list row) (id svc : string) (fd : Z) :
  db w = Some t -> existsb (same_key id svc) t = true ->
  add_stalled_download_to_db id fd svc w = (Ok false, w).
Proof. intros Hdb He. unfold add_stalled_download_to_db. rewrite Hdb, He. reflexivity. Qed.

Lemma add_absent (w : World) (t : list row) (id svc : string) (fd : Z) :
  db w = Some t -> existsb (same_key id svc) t = false ->
  add_stalled_download_to_db id fd svc w =
  (Ok true,
   set_db (Some (t ++ [{| download_id := id; first_detected := fd;
                          arr_service := svc |}])) w).
Proof. intros Hdb He. unfold add_stalled_download_to_db. rewrite Hdb, He. reflexivity. Qed.

Lemma add_keeps_inv (w w' : World) (id svc : string) (fd : Z) (r : outcome bool) :
  db_inv w -> add_stalled_download_to_db id fd svc w = (r, w') -> db_inv w'.
Proof.
  unfold db_inv, add_stalled_download_to_db. intros Hinv H.
  destruct (db w) as [t|] eqn:Hdb.
  - destruct (existsb (same_key id svc) t) eqn:He; inversion H; subst; simpl.
    + rewrite Hdb. exact Hinv.
    + apply unique_keys_add; assumption.
  - inversion H; subst. rewrite Hdb. exact I.
Qed.

Lemma remove_keeps_inv (w w' : World) (id svc : string) (r : outcome unit) :
  db_inv w -> remove_stalled_download_from_db id svc w = (r, w') -> db_inv w'.
Proof.
  unfold db_inv, remove_stalled_download_from_db. intros Hinv H.
  destruct (db w) as [t|] eqn:Hdb; inversion H; subst; simpl.
  - apply unique_keys_filter. exact Hinv.
  - rewrite Hdb. exact I.
Qed.

(** ** Classification *)

(** A record with status warning and a null error message is not
    classified at all: [None] has no [lower], in either mode. *)
Lemma null_message_is_not_classified :
  dict_get null_message_record "status" = Some (VStr "warning")
  /\ is_target false (VDict null_message_record) = Raise AttributeError
  /\ is_target true (VDict null_message_record) = Raise AttributeError.
Proof. repeat split. Qed.

(** C6.  For every queue item that is a dict whose error message is absent
    or a string: in metadata mode the item is a target iff its lower-cased
    message contains the text downloading metadata; in stalled mode it is a
    target iff the lower-cased message contains stalled or connection, or
    the status of the item equals warning (the status alone is enough); in
    both modes the classification yields a boolean.  For every other item,
    that is a dict whose error message is present and no string (null among
    them) or an item that is no dict, the classification raises
    AttributeError in both modes, whatever the status. *)
Theorem classification (item : value) :
  (forall (d : list (string * value)) (raw : string),
     item = VDict d ->
     default (VStr "") (dict_get d "errorMessage") = VStr raw ->
     (is_target true item = Ok true <->
        Substring "downloading metadata" (lower raw))
     /\ (is_target false item = Ok true <->
           Substring "stalled" (lower raw) \/ Substring "connection" (lower raw)
           \/ dict_get d "status" = Some (VStr "warning"))
     /\ (dict_get d "status" = Some (VStr "warning") -> is_target false item = Ok true)
     /\ (exists b1 b2 : bool,
           is_target true item = Ok b1 /\ is_target false item = Ok b2))
  /\ (forall (d : list (string * value)) (v : value),
        item = VDict d -> dict_get d "errorMessage" = Some v -> ~ is_str v ->
        forall metadata_check : bool,
          is_target metadata_check item = Raise AttributeError)
  /\ (~ is_dict item ->
      forall metadata_check : bool,
        is_target metadata_check item = Raise AttributeError).
Proof.
  split; [|split].
  - intros d raw -> Hmsg.
    assert (Hst : py_eq_str (default VNone (dict_get d "status")) "warning" = true
                  <-> dict_get d "status" = Some (VStr "warning")).
    { destruct (dict_get d "status") as [v|]; simpl.
      - destruct v; simpl; try (split; [discriminate | intros H; inversion H]).
        rewrite String.eqb_eq. split; [intros ->; reflexivity | intros H; inversion H; auto].
      - split; [discriminate | discriminate]. }
    unfold is_target, error_msg, item_get. rewrite Hmsg.
    repeat split.
    + intros H. injection H as H'. apply contains_spec. exact H'.
    + intros H. apply contains_spec in H. rewrite H. reflexivity.
    + intros H. injection H as H'. rewrite !orb_true_iff, !contains_spec, Hst in H'. tauto.
    + intros H. f_equal. rewrite !orb_true_iff, !contains_spec, Hst. tauto.
    + intros H. f_equal. rewrite !orb_true_iff, Hst. tauto.
    + eexists _, _. split; reflexivity.
  - intros d v -> Hv Hstr metadata_check.
    unfold is_target, error_msg, item_get. rewrite Hv.
    destruct v; try reflexivity. exfalso. apply Hstr. exact I.
  - intros Hd metadata_check. destruct item; try reflexivity.
    exfalso. apply Hd. exact I.
Qed.

Lemma classification_witness :
  (is_target false (VDict stalled_record) = Ok true
   /\ is_target true (VDict stalled_record) = Ok false)
  /\ is_target false (VDict null_message_record) = Raise AttributeError
  /\ is_target false (VList []) = Raise AttributeError.
Proof.
  split; [|split].
  - pose proof (proj1 (classification (VDict stalled_record)) stalled_record
                  "The download is Stalled with no connections" eq_refl eq_refl) as H.
    split; [|reflexivity].
    apply (proj1 (proj2 (proj2 H))). reflexivity.
  - apply (proj1 (proj2 (classification (VDict null_message_record)))
             null_message_record VNone eq_refl eq_refl).
    intros H. exact H.
  - apply (proj2 (proj2 (classification (VList [])))).
    intros H. exact H.
Defined.

(** ** The HTTP helpers never raise *)

Section Helpers.

Variable cfg : Config.
Variable env : Env.

Lemma query_api_eq (url : string) (headers : gmap string string)
    (params : gmap string value) (w : World) :
  query_api env url headers params w =
  (json_of (http_get env (tick w) url headers params),
   call_out w [EvGet url params]).
Proof.
  unfold query_api, requests_get, json_of, mbind, M_bind, mret, M_ret.
  destruct (http_get env (tick w) url headers params) as [|code body|code failure];
    [reflexivity| |].
  - destruct (raises_for_status code); [reflexivity|].
    destruct body; reflexivity.
  - destruct (raises_for_status code); reflexivity.
Qed.

Lemma delete_api_eq (url : string) (headers : gmap string string)
    (params : gmap string value) (w : World) :
  delete_api env url headers params w =
  (Ok (delete_ok (http_delete env (tick w) url headers params)),
   call_out w [EvDelete url params]).
Proof.
  unfold delete_api, requests_delete, delete_ok, mbind, M_bind, mret, M_ret.
  destruct (http_delete env (tick w) url headers params) as [|code body|code failure];
    [reflexivity| |];
    (destruct (code =? 404); [reflexivity|]);
    destruct (raises_for_status code); reflexivity.
Qed.

Lemma post_api_eq (url : string) (headers : gmap string string) (data : value)
    (w : World) :
  post_api env url headers data w = (Ok tt, call_out w [EvPost url data]).
Proof. reflexivity. Qed.

(** [perform_action] when the delete did not succeed and the action is
    not REMOVE: the function returns after the delete. *)
Lemma perform_action_delete_failed (base_url : string)
    (headers : gmap string string) (id : string) (movie_id : value)
    (service_name api_version : string) (episode_ids series_id : value)
    (w : World) :
  STALLED_ACTION cfg <> "REMOVE" ->
  delete_ok (http_delete env (tick w) (action_url base_url api_version id) headers
               blocklist_params) = false ->
  perform_action cfg env base_url headers id movie_id service_name api_version
    episode_ids series_id w =
  (Ok tt, call_out w [EvDelete (action_url base_url api_version id) blocklist_params]).
Proof.
  intros Hact Hdel. unfold perform_action, mbind, M_bind.
  rewrite delete_api_eq, Hdel.
  apply String.eqb_neq in Hact. rewrite Hact. reflexivity.
Qed.

(** [perform_action] never raises and never touches the table. *)
Lemma perform_action_ok (base_url : string) (headers : gmap string string)
    (id : string) (movie_id : value) (service_name api_version : string)
    (episode_ids series_id : value) (w : World) :
  exists w' : World,
    perform_action cfg env base_url headers id movie_id service_name api_version
      episode_ids series_id w = (Ok tt, w')
    /\ db w' = db w.
Proof.
  unfold perform_action, mbind, M_bind. rewrite delete_api_eq.
  repeat match goal with
         | |- context [if ?b then _ else _] => destruct b
         end;
    rewrite ?post_api_eq; eexists; split; reflexivity.
Qed.

End Helpers.

Lemma gt_int_spec (x : Q) (n : Z) : gt_int x n = true <-> (inject_Z n < x)%Q.
Proof.
  unfold gt_int. rewrite negb_true_iff. split.
  - intros H. apply Qnot_le_lt. intros Hle. apply Qle_bool_iff in Hle. congruence.
  - intros H. destruct (Qle_bool x (inject_Z n)) eqn:E; [|reflexivity].
    apply Qle_bool_iff in E. exfalso. exact (Qlt_not_le _ _ H E).
Qed.

(** ** The rounding of [total_seconds] *)

Lemma nearest_even_le (n d k : Z) : 0 < d -> n <= k * d -> nearest_even n d <= k.
Proof.
  intros Hd Hn. unfold nearest_even.
  pose proof (Z.div_mod n d ltac:(lia)) as Hdm.
  pose proof (Z.mod_pos_bound n d Hd) as Hr.
  assert (Hq : n / d <= k) by (apply Z.div_le_upper_bound; lia).
  assert (Hq1 : 0 < n mod d -> n / d + 1 <= k) by (intros; nia).
  repeat match goal with |- context [if ?b then _ else _] => destruct b eqn:? end;
    try lia; apply Hq1; lia.
Qed.

Lemma nearest_even_ge (n d k : Z) : 0 < d -> k * d <= n -> k <= nearest_even n d.
Proof.
  intros Hd Hn. unfold nearest_even.
  assert (Hq : k <= n / d) by (apply Z.div_le_lower_bound; lia).
  repeat match goal with |- context [if ?b then _ else _] => destruct b end; lia.
Qed.

Lemma double_exponent_nonneg (N d : Z) : 0 <= double_exponent N d.
Proof. unfold double_exponent. lia. Qed.

Lemma double_exponent_bracket (N d : Z) :
  0 < N -> 0 < d -> 0 < double_exponent N d ->
  2 ^ 52 * (d * 2 ^ double_exponent N d) <= N.
Proof.
  intros HN Hd. unfold double_exponent.
  set (e0 := Z.log2 N - Z.log2 d).
  set (f := if (0 <=? e0) && (N <? d * 2 ^ e0) then e0 - 1 else e0).
  intros He. assert (Hf : 53 <= f) by lia.
  replace (Z.max 0 (f - 52)) with (f - 52) by lia.
  assert (Hpow : 2 ^ 52 * 2 ^ (f - 52) = 2 ^ f)
    by (rewrite <- Z.pow_add_r by lia; f_equal; lia).
  assert (Hgoal : d * 2 ^ f <= N); [|rewrite <- Hpow in Hgoal; lia].
  pose proof (Z.log2_spec N HN) as [HN1 _].
  pose proof (Z.log2_spec d Hd) as [_ Hd2].
  pose proof (Z.log2_nonneg d) as Hld.
  unfold f in *. destruct ((0 <=? e0) && (N <? d * 2 ^ e0)) eqn:E.
  - assert (Hsplit : 2 ^ Z.log2 N = 2 ^ Z.succ (Z.log2 d) * 2 ^ (e0 - 1)).
    { rewrite <- Z.pow_add_r by lia. f_equal. unfold e0. lia. }
    assert (0 < 2 ^ (e0 - 1)) by (apply Z.pow_pos_nonneg; lia).
    nia.
  - apply andb_false_iff in E. destruct E as [E|E]; [lia|].
    apply Z.ltb_ge in E. exact E.
Qed.

Lemma double_scaled_le (n d k j : Z) :
  0 < n -> 0 < d -> 0 < k < 2 ^ 53 -> 0 <= j ->
  n * 2 ^ 1074 <= k * 2 ^ j * d -> double_scaled n d <= k * 2 ^ j.
Proof.
  intros Hn Hd Hk Hj H. unfold double_scaled.
  set (N := n * 2 ^ 1074) in *.
  assert (HN : 0 < N) by (unfold N; apply Z.mul_pos_pos; [lia | apply Z.pow_pos_nonneg; lia]).
  pose proof (double_exponent_nonneg N d) as He.
  set (e := double_exponent N d) in *.
  assert (Hpe : 0 < 2 ^ e) by (apply Z.pow_pos_nonneg; lia).
  assert (Hpj : 0 < 2 ^ j) by (apply Z.pow_pos_nonneg; lia).
  destruct (Z_le_gt_dec e j) as [Hle | Hgt].
  - assert (Hsplit : 2 ^ j = 2 ^ (j - e) * 2 ^ e)
      by (rewrite <- Z.pow_add_r by lia; f_equal; lia).
    assert (Hm : nearest_even N (d * 2 ^ e) <= k * 2 ^ (j - e)).
    { apply nearest_even_le; [nia|]. rewrite Hsplit in H. nia. }
    rewrite Hsplit. nia.
  - exfalso. pose proof (double_exponent_bracket N d HN Hd ltac:(fold e; lia)) as Hb.
    fold e in Hb.
    assert (Hsplit : 2 ^ e = 2 ^ (e - j - 1) * (2 * 2 ^ j)).
    { replace (2 * 2 ^ j) with (2 ^ (j + 1)) by (rewrite Z.pow_add_r by lia; lia).
      rewrite <- Z.pow_add_r by lia. f_equal. lia. }
    assert (0 < 2 ^ (e - j - 1)) by (apply Z.pow_pos_nonneg; lia).
    assert (H53 : 2 ^ 53 = 2 * 2 ^ 52) by reflexivity.
    assert (0 < 2 ^ 52) by reflexivity.
    rewrite Hsplit in Hb. nia.
Qed.

Lemma double_scaled_ge (n d k j : Z) :
  0 < n -> 0 < d -> 0 < k < 2 ^ 53 -> 0 <= j ->
  k * 2 ^ j * d <= n * 2 ^ 1074 -> k * 2 ^ j <= double_scaled n d.
Proof.
  intros Hn Hd Hk Hj H. unfold double_scaled.
  set (N := n * 2 ^ 1074) in *.
  assert (HN : 0 < N) by (unfold N; apply Z.mul_pos_pos; [lia | apply Z.pow_pos_nonneg; lia]).
  pose proof (double_exponent_nonneg N d) as He.
  set (e := double_exponent N d) in *.
  assert (Hpe : 0 < 2 ^ e) by (apply Z.pow_pos_nonneg; lia).
  assert (Hpj : 0 < 2 ^ j) by (apply Z.pow_pos_nonneg; lia).
  destruct (Z_le_gt_dec e j) as [Hle | Hgt].
  - assert (Hsplit : 2 ^ j = 2 ^ (j - e) * 2 ^ e)
      by (rewrite <- Z.pow_add_r by lia; f_equal; lia).
    assert (Hm : k * 2 ^ (j - e) <= nearest_even N (d * 2 ^ e)).
    { apply nearest_even_ge; [nia|]. rewrite Hsplit in H. nia. }
    rewrite Hsplit. nia.
  - pose proof (double_exponent_bracket N d HN Hd ltac:(fold e; lia)) as Hb.
    fold e in Hb.
    assert (Hm : 2 ^ 52 <= nearest_even N (d * 2 ^ e)) by (apply nearest_even_ge; nia).
    assert (Hsplit : 2 ^ e = 2 ^ (e - j - 1) * (2 * 2 ^ j)).
    { replace (2 * 2 ^ j) with (2 ^ (j + 1)) by (rewrite Z.pow_add_r by lia; lia).
      rewrite <- Z.pow_add_r by lia. f_equal. lia. }
    assert (0 < 2 ^ (e - j - 1)) by (apply Z.pow_pos_nonneg; lia).
    assert (H53 : 2 ^ 53 = 2 * 2 ^ 52) by reflexivity.
    assert (0 < 2 ^ 52) by reflexivity.
    set (m := nearest_even N (d * 2 ^ e)) in *. clearbody m.
    rewrite Hsplit.
    set (a := 2 ^ j) in *. set (P := 2 ^ (e - j - 1)) in *.
    set (c := 2 ^ 52) in *. clearbody a P c. clear - Hk H53 Hm H0 H1 Hpj.
    assert (k * a <= 2 * m * a) by nia.
    assert (2 * m * a * 1 <= 2 * m * a * P) by (apply Z.mul_le_mono_nonneg_l; nia).
    lia.
Qed.

Lemma double_scaled_nonneg (n d : Z) : 0 < n -> 0 < d -> 0 <= double_scaled n d.
Proof.
  intros Hn Hd. unfold double_scaled.
  set (N := n * 2 ^ 1074).
  assert (HN : 0 < N) by (unfold N; apply Z.mul_pos_pos; [lia | apply Z.pow_pos_nonneg; lia]).
  pose proof (double_exponent_nonneg N d) as He.
  assert (Hpe : 0 < 2 ^ double_exponent N d) by (apply Z.pow_pos_nonneg; lia).
  assert (0 <= nearest_even N (d * 2 ^ double_exponent N d))
    by (apply nearest_even_ge; nia).
  nia.
Qed.

Lemma scale_pos : Z.pos (Z.to_pos (2 ^ 1074)) = 2 ^ 1074.
Proof. apply Z2Pos.id. apply Z.pow_pos_nonneg; lia. Qed.

(** Up to [2^53] seconds, a duration of at most [K] seconds is a
    [total_seconds] of at most [K]. *)
Lemma total_seconds_le (K us : Z) :
  - 2 ^ 53 < K < 2 ^ 53 -> us <= K * 1000000 ->
  (total_seconds us <= inject_Z K)%Q.
Proof.
  intros HK Hus. unfold total_seconds, true_div, Qle, inject_Z.
  assert (Hs : 0 < 2 ^ 1074) by (apply Z.pow_pos_nonneg; lia).
  destruct us as [|u|u]; cbn [Qnum Qden Qopp].
  - lia.
  - rewrite scale_pos, Z.mul_1_r.
    apply double_scaled_le; [lia | lia | lia | lia |].
    set (b := 2 ^ 1074) in *. clearbody b. nia.
  - rewrite scale_pos, Z.mul_1_r.
    pose proof (double_scaled_nonneg (Z.pos u) 1000000 ltac:(lia) ltac:(lia)) as Hnn.
    destruct (Z_le_gt_dec 0 K) as [H0 | H0].
    + set (b := 2 ^ 1074) in *. clearbody b. nia.
    + assert (Hg : (- K) * 2 ^ 1074 <= double_scaled (Z.pos u) 1000000).
      { apply double_scaled_ge; [lia | lia | lia | lia |].
        set (b := 2 ^ 1074) in *. clearbody b. nia. }
      set (b := 2 ^ 1074) in *. clearbody b. lia.
Qed.

Lemma micro_lt_pow20 : 1000000 < 2 ^ 20.
Proof. reflexivity. Qed.

(** Below [2^33] seconds, a duration of more than [K] seconds is a
    [total_seconds] of more than [K]. *)
Lemma total_seconds_gt (K us : Z) :
  - 2 ^ 33 < K < 2 ^ 33 -> K * 1000000 < us ->
  (inject_Z K < total_seconds us)%Q.
Proof.
  intros HK Hus. unfold total_seconds, true_div, Qlt, inject_Z.
  assert (Hs : 0 < 2 ^ 1054) by (apply Z.pow_pos_nonneg; lia).
  assert (Hsplit : 2 ^ 1074 = 2 ^ 20 * 2 ^ 1054)
    by (rewrite <- Z.pow_add_r by lia; reflexivity).
  assert (H33 : 2 ^ 33 * 2 ^ 20 = 2 ^ 53) by reflexivity.
  pose proof micro_lt_pow20 as Hm.
  destruct us as [|u|u]; cbn [Qnum Qden Qopp].
  - lia.
  - rewrite scale_pos, Z.mul_1_r.
    destruct (Z_le_gt_dec 0 K) as [H0 | H0].
    + assert (Hg : (K * 2 ^ 20 + 1) * 2 ^ 1054 <= double_scaled (Z.pos u) 1000000).
      { apply double_scaled_ge; [lia | lia | | lia |].
        - set (t := 2 ^ 20) in *. set (c := 2 ^ 33) in *. set (f := 2 ^ 53) in *.
          clearbody t c f. nia.
        - rewrite Hsplit. set (b := 2 ^ 1054) in *. set (t := 2 ^ 20) in *.
          clearbody b t.
          assert ((K * t + 1) * 1000000 <= Z.pos u * t) by nia.
          nia. }
      rewrite Hsplit. set (b := 2 ^ 1054) in *. set (t := 2 ^ 20) in *.
      clearbody b t. nia.
    + pose proof (double_scaled_nonneg (Z.pos u) 1000000 ltac:(lia) ltac:(lia)) as Hnn.
      rewrite Hsplit. set (b := 2 ^ 1054) in *. set (t := 2 ^ 20) in *.
      clearbody b t. nia.
  - rewrite scale_pos, Z.mul_1_r.
    assert (HK0 : K < 0) by lia.
    assert (Hg : double_scaled (Z.pos u) 1000000 <= ((- K) * 2 ^ 20 - 1) * 2 ^ 1054).
    { apply double_scaled_le; [lia | lia | | lia |].
      - set (t := 2 ^ 20) in *. set (c := 2 ^ 33) in *. set (f := 2 ^ 53) in *.
        clearbody t c f. nia.
      - rewrite Hsplit. set (b := 2 ^ 1054) in *. set (t := 2 ^ 20) in *.
        clearbody b t.
        assert (Z.pos u * t <= ((- K) * t - 1) * 1000000) by nia.
        nia. }
    rewrite Hsplit. set (b := 2 ^ 1054) in *. set (t := 2 ^ 20) in *.
    clearbody b t. nia.
Qed.

Lemma delete_failed_not_ok (r : http_result) : delete_failed r -> delete_ok r = false.
Proof.
  destruct r as [|code body|code failure]; simpl; [reflexivity| |];
    intros [_ H]; rewrite H; apply andb_false_r.
Qed.

Lemma deletes_app (l1 l2 : list event) : deletes (l1 ++ l2) = deletes l1 ++ deletes l2.
Proof. apply List.filter_app. Qed.

Lemma posts_app (l1 l2 : list event) : posts (l1 ++ l2) = posts l1 ++ posts l2.
Proof. apply List.filter_app. Qed.

Section Remediation.

Variable cfg : Config.
Variable env : Env.
Variables (base_url : string) (headers : gmap string string).
Variables (service_name api_version : string).

(** The requests [perform_action] adds to the trace: one delete, then at
    most one command. *)
Lemma perform_action_trace (id : string) (movie_id episode_ids series_id : value)
    (w : World) :
  exists w' : World,
    perform_action cfg env base_url headers id movie_id service_name api_version
      episode_ids series_id w = (Ok tt, w')
    /\ db w' = db w
    /\ deletes (trace w') =
       deletes (trace w) ++ [EvDelete (action_url base_url api_version id) blocklist_params].
Proof.
  unfold perform_action, mbind, M_bind. rewrite delete_api_eq.
  repeat match goal with
         | |- context [if ?b then _ else _] => destruct b
         end;
    rewrite ?post_api_eq; eexists; (split; [reflexivity|]); (split; [reflexivity|]);
    simpl; rewrite ?deletes_app; simpl; rewrite ?app_nil_r; reflexivity.
Qed.

(** The loop body on a target whose id is in the dict read from the
    store. *)
Lemma check_item_tracked (metadata_check : bool) (db_stalled : gmap string Z)
    (d : list (string * value)) (raw : value) (detected : Z) (w : World) :
  is_target metadata_check (VDict d) = Ok true ->
  dict_get d "id" = Some raw ->
  db_stalled !! py_str raw = Some detected ->
  check_item cfg env base_url headers service_name api_version metadata_check
    db_stalled (VDict d) w =
  if gt_int (elapsed_at env w detected) (STALLED_TIMEOUT cfg) then
    (perform_action cfg env base_url headers (py_str raw)
       (default VNone (dict_get d "movieId")) service_name api_version
       (episode_ids_of d) (default VNone (dict_get d "seriesId")) ;;
     remove_stalled_download_from_db (py_str raw) service_name) (call_out w [])
  else (Ok tt, call_out w []).
Proof.
  intros Ht Hid Hdb. unfold check_item, lift, mbind, M_bind at 1.
  rewrite Ht. cbn [negb]. rewrite Hid, Hdb.
  unfold mbind, M_bind at 1, datetime_now, elapsed_at.
  destruct (gt_int _ _); reflexivity.
Qed.

(** The loop body on a target whose id is not in that dict. *)
Lemma check_item_new (metadata_check : bool) (db_stalled : gmap string Z)
    (d : list (string * value)) (raw : value) (w : World) :
  is_target metadata_check (VDict d) = Ok true ->
  dict_get d "id" = Some raw ->
  db_stalled !! py_str raw = None ->
  check_item cfg env base_url headers service_name api_version metadata_check
    db_stalled (VDict d) w =
  (add_stalled_download_to_db (py_str raw) (utcnow env (tick w)) service_name ;;
   mret tt) (call_out w []).
Proof.
  intros Ht Hid Hdb. unfold check_item, lift, mbind, M_bind at 1.
  rewrite Ht. cbn [negb]. rewrite Hid, Hdb. reflexivity.
Qed.

End Remediation.

Lemma without_absent (id service : string) (t : list row) :
  existsb (same_key id service) (without id service t) = false.
Proof.
  unfold without. induction t as [|r t IH]; simpl; [reflexivity|].
  destruct (same_key id service r) eqn:E; simpl; [exact IH|].
  rewrite E. exact IH.
Qed.

Lemma neq_snoc {A : Type} (l : list A) (x : A) : l <> l ++ [x].
Proof.
  intros H. apply (f_equal length) in H. rewrite length_app in H. simpl in H. lia.
Qed.

Section Debounce.

Variable cfg : Config.
Variable env : Env.
Variables (base_url : string) (headers : gmap string string).
Variables (service_name api_version : string) (metadata_check : bool).

Lemma remove_trace (id service : string) (w : World) :
  trace (snd (remove_stalled_download_from_db id service w)) = trace w.
Proof. unfold remove_stalled_download_from_db. destruct (db w); reflexivity. Qed.

(** A tracked target that is due: [perform_action] runs right after the
    clock was read, and then the row is deleted. *)
Lemma check_item_due (db_stalled : gmap string Z) (t : list row)
    (d : list (string * value)) (raw : value) (detected : Z) (w : World) :
  is_target metadata_check (VDict d) = Ok true ->
  dict_get d "id" = Some raw ->
  db w = Some t ->
  db_stalled !! py_str raw = Some detected ->
  gt_int (elapsed_at env w detected) (STALLED_TIMEOUT cfg) = true ->
  exists w' : World,
    perform_action cfg env base_url headers (py_str raw)
      (default VNone (dict_get d "movieId")) service_name api_version
      (episode_ids_of d) (default VNone (dict_get d "seriesId")) (call_out w [])
    = (Ok tt, w')
    /\ check_item cfg env base_url headers service_name api_version metadata_check
         db_stalled (VDict d) w
       = (Ok tt, set_db (Some (without (py_str raw) service_name t)) w').
Proof.
  intros Ht Hid Hdb Hsnap Hgt.
  rewrite (check_item_tracked _ _ _ _ _ _ _ _ _ _ _ _ Ht Hid Hsnap), Hgt.
  destruct (perform_action_trace cfg env base_url headers service_name api_version
              (py_str raw) (default VNone (dict_get d "movieId")) (episode_ids_of d)
              (default VNone (dict_get d "seriesId")) (call_out w []))
    as [w' [Hp [Hdb' _]]].
  exists w'. split; [exact Hp|].
  unfold mbind, M_bind. rewrite Hp. unfold remove_stalled_download_from_db.
  rewrite Hdb'. simpl. rewrite Hdb. reflexivity.
Qed.

(** C3.  For a record that is classified as a target and whose id is in
    the dict read from the store, as it is when the store holds a row for
    it, the delete request of the remediation is issued iff the float that
    [total_seconds] gives for the time since the first detection is
    strictly more than STALLED_TIMEOUT.  For a STALLED_TIMEOUT below 2^33
    seconds in size that is the case iff the microseconds elapsed are
    strictly more than STALLED_TIMEOUT seconds; when they are equal to
    them, or less, the record is left alone: nothing is requested and the
    store is unchanged (this half holds up to 2^53 seconds). *)
Theorem debounce_boundary (db_stalled : gmap string Z) (d : list (string * value))
    (raw : value) (detected : Z) (w : World) :
  is_target metadata_check (VDict d) = Ok true ->
  dict_get d "id" = Some raw ->
  db_stalled !! py_str raw = Some detected ->
  let after := check_item cfg env base_url headers service_name api_version
                 metadata_check db_stalled (VDict d) w in
  let fired := deletes (trace (snd after)) =
               deletes (trace w) ++ [EvDelete (action_url base_url api_version (py_str raw))
                                       blocklist_params] in
  let microseconds := utcnow env (tick w) - detected in
  (fired <-> (inject_Z (STALLED_TIMEOUT cfg) < elapsed_at env w detected)%Q)
  /\ (- 2 ^ 33 < STALLED_TIMEOUT cfg < 2 ^ 33 ->
      (fired <-> STALLED_TIMEOUT cfg * 1000000 < microseconds))
  /\ (- 2 ^ 53 < STALLED_TIMEOUT cfg < 2 ^ 53 ->
      microseconds = STALLED_TIMEOUT cfg * 1000000 ->
      after = (Ok tt, call_out w []))
  /\ (- 2 ^ 53 < STALLED_TIMEOUT cfg < 2 ^ 53 ->
      microseconds <= STALLED_TIMEOUT cfg * 1000000 ->
      after = (Ok tt, call_out w []))
  /\ ((elapsed_at env w detected <= inject_Z (STALLED_TIMEOUT cfg))%Q ->
      after = (Ok tt, call_out w []))
  /\ (forall t : list row,
        db w = Some t -> unique_keys t ->
        In {| download_id := py_str raw; first_detected := detected;
              arr_service := service_name |} t ->
        get_stalled_downloads_from_db service_name w = (Ok (snapshot service_name t), w)
        /\ snapshot service_name t !! py_str raw = Some detected).
Proof.
  intros Ht Hid Hsnap after fired microseconds.
  assert (Hle : (elapsed_at env w detected <= inject_Z (STALLED_TIMEOUT cfg))%Q ->
                after = (Ok tt, call_out w [])).
  { intros H. unfold after.
    rewrite (check_item_tracked _ _ _ _ _ _ _ _ _ _ _ _ Ht Hid Hsnap).
    destruct (gt_int _ _) eqn:E; [|reflexivity].
    apply gt_int_spec in E. exfalso. exact (Qlt_not_le _ _ E H). }
  assert (Hfloat : fired <->
                   (inject_Z (STALLED_TIMEOUT cfg) < elapsed_at env w detected)%Q).
  { unfold fired. split.
    - intros Hfired. apply Qnot_le_lt. intros H. rewrite (Hle H) in Hfired.
      simpl in Hfired. rewrite app_nil_r in Hfired. exact (neq_snoc _ _ Hfired).
    - intros H. apply gt_int_spec in H. unfold after.
      rewrite (check_item_tracked _ _ _ _ _ _ _ _ _ _ _ _ Ht Hid Hsnap), H.
      destruct (perform_action_trace cfg env base_url headers service_name api_version
                  (py_str raw) (default VNone (dict_get d "movieId")) (episode_ids_of d)
                  (default VNone (dict_get d "seriesId")) (call_out w []))
        as [w' [Hp [_ Htr]]].
      unfold mbind, M_bind. rewrite Hp, remove_trace, Htr. simpl.
      rewrite app_nil_r. reflexivity. }
  assert (Hexact : - 2 ^ 53 < STALLED_TIMEOUT cfg < 2 ^ 53 ->
                   microseconds <= STALLED_TIMEOUT cfg * 1000000 ->
                   after = (Ok tt, call_out w [])).
  { intros Hb Hus. apply Hle. apply total_seconds_le; assumption. }
  assert (H3353 : 2 ^ 33 < 2 ^ 53) by reflexivity.
  split; [exact Hfloat|]. split; [|split; [|split; [|split]]].
  - intros Hb. rewrite Hfloat. split.
    + intros Hlt.
      destruct (Z_lt_le_dec (STALLED_TIMEOUT cfg * 1000000) microseconds) as [H|H];
        [exact H|].
      exfalso. apply (Qlt_not_le _ _ Hlt). apply total_seconds_le; [lia | exact H].
    + intros H. apply total_seconds_gt; assumption.
  - intros Hb Hus. apply Hexact; [exact Hb | lia].
  - exact Hexact.
  - exact Hle.
  - intros t Hdb Hu Hin. split.
    + unfold get_stalled_downloads_from_db. rewrite Hdb. reflexivity.
    + apply (snapshot_present service_name t _ Hu Hin). reflexivity.
Qed.

(** C1, as the code has it.  Under BLOCKLIST_AND_SEARCH, when the delete
    of a due record fails for a reason other than a 404 answer, the delete
    is the only request made for that record, so no search command is
    issued; the row of the record is deleted from the store all the same. *)
Theorem failed_delete_no_search (db_stalled : gmap string Z) (t : list row)
    (d : list (string * value)) (raw : value) (detected : Z) (w : World) :
  STALLED_ACTION cfg = "BLOCKLIST_AND_SEARCH" ->
  is_target metadata_check (VDict d) = Ok true ->
  dict_get d "id" = Some raw ->
  db w = Some t ->
  db_stalled !! py_str raw = Some detected ->
  (inject_Z (STALLED_TIMEOUT cfg) < elapsed_at env w detected)%Q ->
  delete_failed (http_delete env (S (tick w))
                   (action_url base_url api_version (py_str raw)) headers
                   blocklist_params) ->
  exists w' : World,
    check_item cfg env base_url headers service_name api_version metadata_check
      db_stalled (VDict d) w = (Ok tt, w')
    /\ trace w' = trace w ++ [EvDelete (action_url base_url api_version (py_str raw))
                                blocklist_params]
    /\ posts (trace w') = posts (trace w)
    /\ db w' = Some (without (py_str raw) service_name t)
    /\ existsb (same_key (py_str raw) service_name)
         (without (py_str raw) service_name t) = false.
Proof.
  intros Hact Ht Hid Hdb Hsnap Hgt Hfail. apply gt_int_spec in Hgt.
  destruct (check_item_due db_stalled t d raw detected w Ht Hid Hdb Hsnap Hgt)
    as [w' [Hp Hc]].
  rewrite perform_action_delete_failed in Hp.
  - injection Hp as <-. eexists. split; [exact Hc|]. simpl.
    rewrite app_nil_r. repeat split.
    + rewrite posts_app. simpl. apply app_nil_r.
    + apply without_absent.
  - rewrite Hact. discriminate.
  - apply delete_failed_not_ok. exact Hfail.
Qed.

(** C2, as the code has it.  Under BLOCKLIST_AND_SEARCH a 404 answer to
    the delete makes [perform_action] return right after the delete: no
    search command is issued.  After a delete that succeeded the search
    command is issued, for a Radarr record with a movie id the MoviesSearch
    of that movie. *)
Theorem not_found_no_search (id : string) (movie_id episode_ids series_id : value)
    (w : World) :
  STALLED_ACTION cfg = "BLOCKLIST_AND_SEARCH" ->
  let answer := http_delete env (tick w) (action_url base_url api_version id) headers
                  blocklist_params in
  let w1 := call_out w [EvDelete (action_url base_url api_version id) blocklist_params] in
  let run := perform_action cfg env base_url headers id movie_id service_name
               api_version episode_ids series_id w in
  ((exists body : option value, answer = Response 404 body) ->
   run = (Ok tt, w1) /\ posts (trace (snd run)) = posts (trace w))
  /\ (delete_ok answer = true ->
      startswith service_name "Sonarr" = false ->
      startswith service_name "Radarr" = true ->
      truthy movie_id = true ->
      run = (Ok tt, call_out w1 [EvPost (command_url base_url api_version)
                                   (movies_search movie_id)])).
Proof.
  intros Hact answer w1 run. split.
  - intros [body H404].
    assert (Hrun : run = (Ok tt, w1)).
    { apply perform_action_delete_failed.
      - rewrite Hact. discriminate.
      - fold answer. rewrite H404. reflexivity. }
    rewrite Hrun. split; [reflexivity|].
    simpl. rewrite posts_app. simpl. apply app_nil_r.
  - intros Hok Hson Hrad Hmovie.
    unfold run, perform_action, mbind, M_bind. rewrite delete_api_eq. fold answer.
    rewrite Hok, Hact, Hson, Hrad, Hmovie. reflexivity.
Qed.

(** C9.  Under BLOCKLIST_AND_SEARCH, for a service whose name starts with
    Sonarr and a tracked record that is due and whose delete succeeded, the
    requests made for the record are the delete and then: when the record
    has a non-empty episodeId, one EpisodeSearch command whose episodeIds
    are the list of that one id; else, when it has non-empty episodeIds, one
    EpisodeSearch command with exactly these; else, when it has a seriesId,
    one SeriesSearch command for that series; with none of them nothing
    more, so no command is sent.  In the first two cases no SeriesSearch is
    sent. *)
Theorem sonarr_search (db_stalled : gmap string Z) (t : list row)
    (d : list (string * value)) (raw : value) (detected : Z) (w : World) :
  STALLED_ACTION cfg = "BLOCKLIST_AND_SEARCH" ->
  startswith service_name "Sonarr" = true ->
  is_target metadata_check (VDict d) = Ok true ->
  dict_get d "id" = Some raw ->
  db w = Some t ->
  db_stalled !! py_str raw = Some detected ->
  (inject_Z (STALLED_TIMEOUT cfg) < elapsed_at env w detected)%Q ->
  delete_ok (http_delete env (S (tick w))
               (action_url base_url api_version (py_str raw)) headers
               blocklist_params) = true ->
  let after := check_item cfg env base_url headers service_name api_version
                 metadata_check db_stalled (VDict d) w in
  let delete := EvDelete (action_url base_url api_version (py_str raw))
                  blocklist_params in
  let command := fun body : list (string * value) =>
                   EvPost (command_url base_url api_version) (VDict body) in
  fst after = Ok tt
  /\ (forall e : value,
        dict_get d "episodeId" = Some e -> truthy e = true ->
        trace (snd after) =
        trace w ++ [delete; command [("name", VStr "EpisodeSearch");
                                     ("episodeIds", VList [e])]])
  /\ (forall l : value,
        has_truthy d "episodeId" = false ->
        dict_get d "episodeIds" = Some l -> truthy l = true ->
        trace (snd after) =
        trace w ++ [delete; command [("name", VStr "EpisodeSearch");
                                     ("episodeIds", l)]])
  /\ (forall s : value,
        has_truthy d "episodeId" = false -> has_truthy d "episodeIds" = false ->
        dict_get d "seriesId" = Some s -> truthy s = true ->
        trace (snd after) =
        trace w ++ [delete; command [("name", VStr "SeriesSearch");
                                     ("seriesId", s)]])
  /\ (has_truthy d "episodeId" = false -> has_truthy d "episodeIds" = false ->
      has_truthy d "seriesId" = false ->
      trace (snd after) = trace w ++ [delete]).
Proof.
  intros Hact Hson Ht Hid Hdb Hsnap Hgt Hdel after delete command.
  apply gt_int_spec in Hgt.
  destruct (check_item_due db_stalled t d raw detected w Ht Hid Hdb Hsnap Hgt)
    as [w' [Hp Hc]].
  assert (Hrun : (Ok tt, w') =
            (if truthy (episode_ids_of d) then
               post_api env (command_url base_url api_version) headers
                 (episode_search (episode_ids_of d))
             else if truthy (default VNone (dict_get d "seriesId")) then
               post_api env (command_url base_url api_version) headers
                 (series_search (default VNone (dict_get d "seriesId")))
             else mret tt) (call_out (call_out w []) [delete])).
  { rewrite <- Hp. unfold perform_action, mbind, M_bind. rewrite delete_api_eq.
    change (tick (call_out w [])) with (S (tick w)). rewrite Hdel.
    rewrite Hact, Hson. reflexivity. }
  assert (Htr : trace (snd after) = trace w') by (unfold after; rewrite Hc; reflexivity).
  split; [unfold after; rewrite Hc; reflexivity|].
  rewrite Htr. clear Htr Hc Hp after.
  split; [|split; [|split]].
  - intros e He Het.
    assert (Hids : episode_ids_of d = VList [e])
      by (unfold episode_ids_of, has_truthy; rewrite He, Het; reflexivity).
    rewrite Hids in Hrun. cbn [truthy] in Hrun. rewrite post_api_eq in Hrun.
    injection Hrun as ->. simpl. rewrite app_nil_r, <- app_assoc. reflexivity.
  - intros l H1 Hl Hlt.
    assert (Hids : episode_ids_of d = l).
    { unfold episode_ids_of. rewrite H1. unfold has_truthy. rewrite Hl, Hlt. reflexivity. }
    rewrite Hids, Hlt, post_api_eq in Hrun.
    injection Hrun as ->. simpl. rewrite app_nil_r, <- app_assoc. reflexivity.
  - intros s H1 H2 Hs Hst.
    assert (Hids : episode_ids_of d = VNone)
      by (unfold episode_ids_of; rewrite H1, H2; reflexivity).
    rewrite Hids, Hs in Hrun. cbn [truthy] in Hrun.
    change (default VNone (Some s)) with s in Hrun. rewrite Hst, post_api_eq in Hrun.
    injection Hrun as ->. simpl. rewrite app_nil_r, <- app_assoc. reflexivity.
  - intros H1 H2 H3.
    assert (Hids : episode_ids_of d = VNone)
      by (unfold episode_ids_of; rewrite H1, H2; reflexivity).
    assert (Hser : truthy (default VNone (dict_get d "seriesId")) = false).
    { unfold has_truthy in H3. destruct (dict_get d "seriesId"); [exact H3 | reflexivity]. }
    rewrite Hids, Hser in Hrun. cbn [truthy] in Hrun.
    injection Hrun as ->. simpl. rewrite app_nil_r. reflexivity.
Qed.

End Debounce.

(** ** The theorems at concrete inputs *)

(** C3 as stated fails.  With a STALLED_TIMEOUT of 2^34 seconds, a record
    first seen one microsecond more than that ago is left alone: the
    seconds elapsed, as a float, are 2^34 exactly. *)
Lemma long_timeout_rounds_down :
  STALLED_TIMEOUT long_timeout * 1000000 < utcnow env_past_long 0 - first_detected row_42
  /\ check_item long_timeout env_past_long radarr_base (api_headers "key") "Radarr0" "v3"
       false (snapshot "Radarr0" [row_42]) (VDict stalled_record) tracked_42
     = (Ok tt, call_out tracked_42 []).
Proof. split; vm_compute; reflexivity. Qed.

Lemma debounce_boundary_witness :
  check_item search_config env_at_900 radarr_base (api_headers "key") "Radarr0" "v3"
    false (snapshot "Radarr0" [row_42]) (VDict stalled_record) tracked_42
  = (Ok tt, call_out tracked_42 [])
  /\ deletes (trace (snd (check_item search_config env_just_past radarr_base
                            (api_headers "key") "Radarr0" "v3" false
                            (snapshot "Radarr0" [row_42]) (VDict stalled_record)
                            tracked_42)))
     = [EvDelete (action_url radarr_base "v3" "42") blocklist_params].
Proof.
  split.
  - pose proof (debounce_boundary search_config env_at_900 radarr_base (api_headers "key")
                  "Radarr0" "v3" false (snapshot "Radarr0" [row_42]) stalled_record
                  (VInt 42) 0 tracked_42 eq_refl eq_refl eq_refl) as H.
    apply (proj1 (proj2 (proj2 H))); [split; reflexivity | reflexivity].
  - pose proof (debounce_boundary search_config env_just_past radarr_base
                  (api_headers "key") "Radarr0" "v3" false (snapshot "Radarr0" [row_42])
                  stalled_record (VInt 42) 0 tracked_42 eq_refl eq_refl eq_refl) as H.
    apply (proj2 (proj1 (proj2 H) (conj eq_refl eq_refl))). reflexivity.
Defined.

(** C1 as stated fails.  Record 42 is tracked and due, the delete is answered
    with 500: no search is issued, yet after the cycle the store holds no row
    for the record. *)
Lemma failed_delete_drops_record :
  let w' := snd (check_queue_and_act search_config env_500 1 radarr_base "key"
                   "Radarr0" "v3" false tracked_42) in
  db tracked_42 = Some [row_42]
  /\ posts (trace w') = []
  /\ deletes (trace w') = [EvDelete "http://radarr:7878/api/v3/queue/42" blocklist_params]
  /\ db w' = Some [].
Proof. vm_compute. repeat split. Qed.

Lemma failed_delete_no_search_witness :
  exists w' : World,
    check_item search_config env_500 radarr_base (api_headers "key") "Radarr0" "v3"
      false (snapshot "Radarr0" [row_42]) (VDict stalled_record) tracked_42
    = (Ok tt, w')
    /\ posts (trace w') = []
    /\ db w' = Some [].
Proof.
  destruct (failed_delete_no_search search_config env_500 radarr_base (api_headers "key")
              "Radarr0" "v3" false (snapshot "Radarr0" [row_42]) [row_42]
              stalled_record (VInt 42) 0 tracked_42)
    as [w' [Hc [_ [Hp [Hdb _]]]]].
  - reflexivity.
  - reflexivity.
  - reflexivity.
  - reflexivity.
  - reflexivity.
  - reflexivity.
  - split; [discriminate | reflexivity].
  - exists w'. split; [exact Hc|]. split; [exact Hp | exact Hdb].
Defined.

(** C2 as stated fails.  The same cycle with the delete answered with 404
    issues no search command, while with 200 it issues the movie search. *)
Lemma not_found_differs_from_success :
  posts (trace (snd (check_queue_and_act search_config env_404 1 radarr_base "key"
                       "Radarr0" "v3" false tracked_42))) = []
  /\ posts (trace (snd (check_queue_and_act search_config env_200 1 radarr_base "key"
                          "Radarr0" "v3" false tracked_42)))
     = [EvPost "http://radarr:7878/api/v3/command" (movies_search (VInt 7))].
Proof. vm_compute. split; reflexivity. Qed.

Lemma not_found_no_search_witness :
  perform_action search_config env_404 radarr_base (api_headers "key") "42" (VInt 7)
    "Radarr0" "v3" VNone VNone tracked_42
  = (Ok tt, call_out tracked_42 [EvDelete (action_url radarr_base "v3" "42")
                                   blocklist_params])
  /\ perform_action search_config env_200 radarr_base (api_headers "key") "42" (VInt 7)
       "Radarr0" "v3" VNone VNone tracked_42
     = (Ok tt, call_out (call_out tracked_42 [EvDelete (action_url radarr_base "v3" "42")
                                                blocklist_params])
                 [EvPost (command_url radarr_base "v3") (movies_search (VInt 7))]).
Proof.
  split.
  - refine (proj1 (proj1 (not_found_no_search search_config env_404 radarr_base
                            (api_headers "key") "Radarr0" "v3" "42" (VInt 7) VNone VNone
                            tracked_42 eq_refl) _)).
    exists None. reflexivity.
  - exact (proj2 (not_found_no_search search_config env_200 radarr_base
                    (api_headers "key") "Radarr0" "v3" "42" (VInt 7) VNone VNone
                    tracked_42 eq_refl) eq_refl eq_refl eq_refl eq_refl).
Defined.

Lemma sonarr_search_witness :
  trace (snd (check_item search_config env_sonarr sonarr_base (api_headers "key")
                "Sonarr0" "v3" false (snapshot "Sonarr0" [row_77; row_78])
                (VDict sonarr_record) tracked_sonarr))
  = [EvDelete "http://sonarr:8989/api/v3/queue/77" blocklist_params;
     EvPost "http://sonarr:8989/api/v3/command"
       (VDict [("name", VStr "EpisodeSearch");
               ("episodeIds", VList [VInt 10; VInt 11])])]
  /\ trace (snd (check_item search_config env_sonarr sonarr_base (api_headers "key")
                   "Sonarr0" "v3" false (snapshot "Sonarr0" [row_77; row_78])
                   (VDict sonarr_pack_record) tracked_sonarr))
     = [EvDelete "http://sonarr:8989/api/v3/queue/78" blocklist_params;
        EvPost "http://sonarr:8989/api/v3/command"
          (VDict [("name", VStr "SeriesSearch"); ("seriesId", VInt 5)])].
Proof.
  split.
  - pose proof (sonarr_search search_config env_sonarr sonarr_base (api_headers "key")
                  "Sonarr0" "v3" false (snapshot "Sonarr0" [row_77; row_78])
                  [row_77; row_78] sonarr_record (VInt 77) 0 tracked_sonarr
                  eq_refl eq_refl eq_refl eq_refl eq_refl eq_refl eq_refl eq_refl) as H.
    exact (proj1 (proj2 (proj2 H)) (VList [VInt 10; VInt 11]) eq_refl eq_refl eq_refl).
  - pose proof (sonarr_search search_config env_sonarr sonarr_base (api_headers "key")
                  "Sonarr0" "v3" false (snapshot "Sonarr0" [row_77; row_78])
                  [row_77; row_78] sonarr_pack_record (VInt 78) 0 tracked_sonarr
                  eq_refl eq_refl eq_refl eq_refl eq_refl eq_refl eq_refl eq_refl) as H.
    exact (proj1 (proj2 (proj2 (proj2 H))) (VInt 5) eq_refl eq_refl eq_refl eq_refl).
Defined.

(** ** The fetch loop *)

Section Fetch.

Variable env : Env.
Variables (url : string) (headers : gmap string string).
Variables (params : option (gmap string value)) (page_size : Z).

Local Abbreviation loop := (query_api_paginated_loop env).

(** One round of the loop, by the answer of the backend. *)
Lemma loop_round (fuel : nat) (acc : list value) (page : Z) (total : value)
    (w : World) :
  loop (S fuel) url headers params page_size acc page total w =
  let w1 := call_out w [EvGet url (paginated params page page_size)] in
  match json_of (http_get env (tick w) url headers (paginated params page page_size)) with
  | Ok (VDict d) =>
      match d with
      | [] => (Ok acc, w1)
      | _ :: _ =>
          match dict_get d "records" with
          | None => (Ok acc, w1)
          | Some records =>
              let total' := default total (dict_get d "totalRecords") in
              if negb (truthy records) then (Ok acc, w1)
              else match py_iter records with
                   | None => (Raise TypeError, w1)
                   | Some more =>
                       if truthy total' then
                         match int_ge (Z.of_nat (length (acc ++ more))) total' with
                         | None => (Raise TypeError, w1)
                         | Some true => (Ok (acc ++ more), w1)
                         | Some false =>
                             loop fuel url headers params page_size (acc ++ more)
                               (page + 1) total' w1
                         end
                       else loop fuel url headers params page_size (acc ++ more)
                              (page + 1) total' w1
                   end
          end
      end
  | Ok _ => (Ok acc, w1)
  | Raise e => (Raise e, w1)
  | Diverge => (Diverge, w1)
  end.
Proof.
  cbn [query_api_paginated_loop]. unfold mbind, M_bind at 1. rewrite query_api_eq.
  cbv zeta.
  destruct (json_of _) as [[| | | | |d]|e|]; try reflexivity.
  destruct d as [|kv d]; [reflexivity|]. cbn [truthy negb].
  destruct (dict_get (kv :: d) "records") as [records|]; [|reflexivity].
  destruct (truthy records); [|reflexivity]. cbn [negb].
  destruct (py_iter records) as [more|]; [|reflexivity].
  destruct (truthy _); [|reflexivity].
  destruct (int_ge _ _) as [[|]|]; reflexivity.
Qed.

(** The loop asks for consecutive pages, always with the same page size,
    and does not touch the store. *)
Lemma loop_requests (fuel : nat) :
  forall (acc : list value) (page : Z) (total : value) (w : World)
         (r : outcome (list value)) (w' : World),
    loop fuel url headers params page_size acc page total w = (r, w') ->
    exists n : nat,
      (n <= fuel)%nat
      /\ trace w' = trace w ++ page_requests url params page_size page n
      /\ db w' = db w.
Proof.
  induction fuel as [|fuel IH]; intros acc page total w r w' H.
  - injection H as <- <-. exists O. rewrite app_nil_r. auto.
  - rewrite loop_round in H. cbv zeta in H.
    assert (Hstop : forall x : outcome (list value),
               (x, call_out w [EvGet url (paginated params page page_size)]) = (r, w') ->
               exists n : nat,
                 (n <= S fuel)%nat
                 /\ trace w' = trace w ++ page_requests url params page_size page n
                 /\ db w' = db w).
    { intros x Hx. injection Hx as <- <-. exists 1%nat. simpl. split; [lia | auto]. }
    assert (Hnext : forall (acc' : list value) (total' : value),
               loop fuel url headers params page_size acc' (page + 1) total'
                 (call_out w [EvGet url (paginated params page page_size)]) = (r, w') ->
               exists n : nat,
                 (n <= S fuel)%nat
                 /\ trace w' = trace w ++ page_requests url params page_size page n
                 /\ db w' = db w).
    { intros acc' total' Hx. apply IH in Hx. destruct Hx as [n [Hn [Htr Hdb]]].
      exists (S n). split; [lia|]. split; [|exact Hdb].
      rewrite Htr. simpl. rewrite <- app_assoc. reflexivity. }
    repeat match type of H with
           | context [match ?x with _ => _ end] => destruct x
           end;
      eauto.
Qed.

(** More fuel does not change a result that was reached. *)
Lemma loop_fuel_mono (fuel : nat) :
  forall (acc : list value) (page : Z) (total : value) (w : World)
         (r : outcome (list value)) (w' : World) (k : nat),
    loop fuel url headers params page_size acc page total w = (r, w') ->
    r <> Diverge ->
    loop (fuel + k) url headers params page_size acc page total w = (r, w').
Proof.
  induction fuel as [|fuel IH]; intros acc page total w r w' k H Hr.
  - injection H as <- <-. congruence.
  - change (S fuel + k)%nat with (S (fuel + k)).
    rewrite loop_round in *. cbv zeta in *.
    repeat match type of H with
           | context [match ?x with _ => _ end] => destruct x
           end;
      auto.
Qed.

(** A round that brings a page but not yet the reported total. *)
Lemma loop_continue (fuel : nat) (acc : list value) (page : Z) (total : value)
    (w : World) (d : list (string * value)) (records : list value) (n : Z) :
  json_of (http_get env (tick w) url headers (paginated params page page_size))
  = Ok (VDict d) ->
  dict_get d "records" = Some (VList records) ->
  records <> [] ->
  default total (dict_get d "totalRecords") = VInt n ->
  Z.of_nat (length (acc ++ records)) < n ->
  loop (S fuel) url headers params page_size acc page total w
  = loop fuel url headers params page_size (acc ++ records) (page + 1) (VInt n)
      (call_out w [EvGet url (paginated params page page_size)]).
Proof.
  intros Hd Hrec Hne Htot Hlt. rewrite loop_round. cbv zeta.
  rewrite Hd, Hrec, Htot. destruct d as [|kv d]; [discriminate|].
  destruct records as [|x records]; [congruence|]. cbn [truthy negb py_iter int_ge].
  assert (Hn : (n =? 0) = false) by (apply Z.eqb_neq; lia). rewrite Hn. cbn [negb].
  assert (Hle : (n <=? Z.of_nat (length (acc ++ x :: records))) = false)
    by (apply Z.leb_gt; exact Hlt).
  rewrite Hle. reflexivity.
Qed.

(** A round that brings the accumulated count up to the reported total. *)
Lemma loop_done (fuel : nat) (acc : list value) (page : Z) (total : value)
    (w : World) (d : list (string * value)) (records : list value) (n : Z) :
  json_of (http_get env (tick w) url headers (paginated params page page_size))
  = Ok (VDict d) ->
  dict_get d "records" = Some (VList records) ->
  records <> [] ->
  default total (dict_get d "totalRecords") = VInt n ->
  n <> 0 ->
  n <= Z.of_nat (length (acc ++ records)) ->
  loop (S fuel) url headers params page_size acc page total w
  = (Ok (acc ++ records), call_out w [EvGet url (paginated params page page_size)]).
Proof.
  intros Hd Hrec Hne Htot Hn Hle. rewrite loop_round. cbv zeta.
  rewrite Hd, Hrec, Htot. destruct d as [|kv d]; [discriminate|].
  destruct records as [|x records]; [congruence|]. cbn [truthy negb py_iter int_ge].
  apply Z.eqb_neq in Hn. rewrite Hn. cbn [negb].
  apply Z.leb_le in Hle. rewrite Hle. reflexivity.
Qed.

End Fetch.

Lemma paged_backend_get (items : list value) (t : nat) (url : string)
    (headers : gmap string string) (params : option (gmap string value))
    (page page_size : Z) :
  json_of (http_get (paged_backend items) t url headers (paginated params page page_size))
  = Ok (VDict (page_answer items page page_size)).
Proof.
  unfold paginated. simpl.
  rewrite lookup_insert_ne by discriminate.
  rewrite !lookup_insert_eq. reflexivity.
Qed.

Lemma fetch_120_exact (url : string) (headers : gmap string string)
    (params : option (gmap string value)) (w : World) :
  query_api_paginated (paged_backend (numbered 120)) 3 url headers params
    page_size_default w
  = (Ok (numbered 120), three_pages url params w).
Proof.
  unfold query_api_paginated, page_size_default.
  rewrite (loop_continue _ _ _ _ _ 2 [] 1 VNone w
             (page_answer (numbered 120) 1 50) (page_of (numbered 120) 1 50) 120);
    [| apply paged_backend_get | reflexivity | discriminate | reflexivity | reflexivity].
  rewrite (loop_continue _ _ _ _ _ 1 _ _ _ _
             (page_answer (numbered 120) 2 50) (page_of (numbered 120) 2 50) 120);
    [| apply paged_backend_get | reflexivity | discriminate | reflexivity | reflexivity].
  rewrite (loop_done _ _ _ _ _ 0 _ _ _ _
             (page_answer (numbered 120) 3 50) (page_of (numbered 120) 3 50) 120);
    [| apply paged_backend_get | reflexivity | discriminate | reflexivity | discriminate
     | vm_compute; discriminate].
  reflexivity.
Qed.

Lemma three_pages_of (items : list value) :
  length items = 120%nat ->
  ([] ++ page_of items 1 50) ++ page_of items 2 50 ++ page_of items 3 50 = items
  /\ length (page_of items 1 50) = 50%nat
  /\ length (page_of items 2 50) = 50%nat
  /\ length (page_of items 3 50) = 20%nat.
Proof.
  intros Hlen. unfold page_of.
  change (Z.to_nat 50) with 50%nat.
  change (Z.to_nat ((1 - 1) * 50)) with 0%nat.
  change (Z.to_nat ((2 - 1) * 50)) with 50%nat.
  change (Z.to_nat ((3 - 1) * 50)) with (50 + 50)%nat.
  rewrite <- skipn_skipn. rewrite skipn_O.
  assert (H3 : firstn 50 (skipn 50 (skipn 50 items)) = skipn 50 (skipn 50 items)).
  { apply firstn_all2. rewrite !length_skipn. lia. }
  rewrite H3. split; [|split; [|split]].
  - rewrite app_nil_l. rewrite (firstn_skipn 50 (skipn 50 items)).
    apply firstn_skipn.
  - rewrite length_firstn. lia.
  - rewrite length_firstn, length_skipn. lia.
  - rewrite !length_skipn. lia.
Qed.

Lemma nonempty_of_length {A : Type} (l : list A) (n : nat) :
  length l = S n -> l <> [].
Proof. intros H ->. discriminate. Qed.

(** A backend that serves the three pages of a queue of 120 records and
    reports the total makes the fetch return the queue after three
    requests. *)
Lemma fetch_three_pages (env : Env) (items : list value) (url : string)
    (headers : gmap string string) (params : option (gmap string value)) (w : World) :
  length items = 120%nat ->
  serves_pages env items url headers params w ->
  query_api_paginated env 3 url headers params page_size_default w
  = (Ok items, three_pages url params w).
Proof.
  intros Hlen Hserve.
  destruct (three_pages_of items Hlen) as [Hall [H1 [H2 H3]]].
  assert (Hjson : forall k : nat, (k < 3)%nat ->
            exists d : list (string * value),
              json_of (http_get env (k + tick w) url headers
                         (paginated params (Z.of_nat k + 1) 50)) = Ok (VDict d)
              /\ dict_get d "records" = Some (VList (page_of items (Z.of_nat k + 1) 50))
              /\ dict_get d "totalRecords" = Some (VInt 120)).
  { intros k Hk. destruct (Hserve k Hk) as [code [d [Hget [Hcode [Hrec Htot]]]]].
    exists d. rewrite Hget. simpl. rewrite Hcode. auto. }
  destruct (Hjson 0%nat ltac:(lia)) as [d1 [Hd1 [Hr1 Ht1]]].
  destruct (Hjson 1%nat ltac:(lia)) as [d2 [Hd2 [Hr2 Ht2]]].
  destruct (Hjson 2%nat ltac:(lia)) as [d3 [Hd3 [Hr3 Ht3]]].
  unfold query_api_paginated, page_size_default.
  rewrite (loop_continue _ _ _ _ _ 2 [] 1 VNone w d1 (page_of items 1 50) 120);
    [| exact Hd1 | exact Hr1 | exact (nonempty_of_length _ _ H1)
     | rewrite Ht1; reflexivity | rewrite length_app, H1; simpl; lia].
  rewrite (loop_continue _ _ _ _ _ 1 _ _ _ _ d2 (page_of items 2 50) 120);
    [| exact Hd2 | exact Hr2 | exact (nonempty_of_length _ _ H2)
     | rewrite Ht2; reflexivity | rewrite !length_app, H1, H2; simpl; lia].
  rewrite (loop_done _ _ _ _ _ 0 _ _ _ _ d3 (page_of items 3 50) 120);
    [| exact Hd3 | exact Hr3 | exact (nonempty_of_length _ _ H3)
     | rewrite Ht3; reflexivity | discriminate
     | rewrite !length_app, H1, H2, H3; simpl; lia].
  rewrite <- app_assoc, Hall. reflexivity.
Qed.

Lemma paged_backend_serves (items : list value) (url : string)
    (headers : gmap string string) (params : option (gmap string value)) (w : World) :
  length items = 120%nat ->
  serves_pages (paged_backend items) items url headers params w.
Proof.
  intros Hlen k Hk. exists 200, (page_answer items (Z.of_nat k + 1) 50).
  split; [|split; [reflexivity | split; [reflexivity|]]].
  - unfold paginated. simpl.
    rewrite lookup_insert_ne by discriminate.
    rewrite !lookup_insert_eq. reflexivity.
  - simpl. rewrite Hlen. reflexivity.
Qed.

(** C8 as stated fails.  An answer that holds a number where the records
    should be is malformed, yet the fetch does not return what it gathered:
    it raises TypeError. *)
Lemma malformed_records_raise :
  query_api_paginated env_broken 5 (queue_url radarr_base "v3") (api_headers "key")
    (Some (queue_params "Radarr0" false)) page_size_default fresh
  = (Raise TypeError,
     call_out fresh [EvGet (queue_url radarr_base "v3")
                       (paginated (Some (queue_params "Radarr0" false)) 1 50)]).
Proof. reflexivity. Qed.

(** C8.  The fetch loop: the page size of the queue fetch is 50; every round
    asks for the next page number with that page size.  A round ends the
    loop with what was accumulated before when its request fails (no
    answer, a 4xx or 5xx status, a body that is no JSON), when the answer is
    empty, is no dict or has no records, or when the page is empty.  A round
    whose body makes the JSON decoder fail with an error that is no request
    error, whose non-empty records cannot be iterated, or whose total cannot
    be compared with a count, raises that error out of the fetch.  A round
    that brings the accumulated count up to the reported total ends the loop
    with the page added; otherwise the loop goes on with the page added.
    From every backend that reports 120 records and serves them in pages of
    50 the fetch returns the 120 records after exactly three requests, for
    pages 1, 2 and 3. *)
Theorem pagination (env : Env) (url : string) (headers : gmap string string)
    (params : option (gmap string value)) (page_size : Z) (fuel : nat)
    (acc : list value) (page : Z) (total : value) (w : World) :
  let answer := http_get env (tick w) url headers (paginated params page page_size) in
  let w1 := call_out w [EvGet url (paginated params page page_size)] in
  let round :=
    query_api_paginated_loop env (S fuel) url headers params page_size acc page total w in
  let next := fun (acc' : list value) (total' : value) =>
    query_api_paginated_loop env fuel url headers params page_size acc' (page + 1)
      total' w1 in
  page_size_default = 50
  /\ (answer = RequestError -> round = (Ok acc, w1))
  /\ (forall (code : Z) (body : option value),
        answer = Response code body -> raises_for_status code = true ->
        round = (Ok acc, w1))
  /\ (forall (code : Z) (failure : json_failure),
        answer = Unparsed code failure -> raises_for_status code = true ->
        round = (Ok acc, w1))
  /\ (forall code : Z, answer = Response code None -> round = (Ok acc, w1))
  /\ (forall (code : Z) (failure : json_failure),
        answer = Unparsed code failure -> raises_for_status code = false ->
        round = (Raise (exn_of failure), w1))
  /\ (forall (code : Z) (response : value),
        answer = Response code (Some response) -> raises_for_status code = false ->
        (malformed response -> round = (Ok acc, w1))
        /\ (forall (d : list (string * value)) (records : value),
              response = VDict d -> dict_get d "records" = Some records ->
              truthy records = false -> round = (Ok acc, w1))
        /\ (forall (d : list (string * value)) (records : value),
              response = VDict d -> dict_get d "records" = Some records ->
              truthy records = true -> py_iter records = None ->
              round = (Raise TypeError, w1))
        /\ (forall (d : list (string * value)) (records : list value) (total' : value),
              response = VDict d -> dict_get d "records" = Some (VList records) ->
              records <> [] ->
              default total (dict_get d "totalRecords") = total' ->
              (forall n : Z, total' = VInt n -> n <> 0 ->
                             n <= Z.of_nat (length (acc ++ records)) ->
                             round = (Ok (acc ++ records), w1))
              /\ (forall n : Z, total' = VInt n ->
                                Z.of_nat (length (acc ++ records)) < n ->
                                round = next (acc ++ records) total')
              /\ (truthy total' = false -> round = next (acc ++ records) total')
              /\ (truthy total' = true ->
                  int_ge (Z.of_nat (length (acc ++ records))) total' = None ->
                  round = (Raise TypeError, w1))))
  /\ (forall (r : outcome (list value)) (w' : World),
        round = (r, w') ->
        exists n : nat,
          (n <= S fuel)%nat
          /\ trace w' = trace w ++ page_requests url params page_size page n
          /\ db w' = db w)
  /\ (forall items : list value,
        length items = 120%nat ->
        serves_pages env items url headers params w ->
        (3 <= fuel)%nat ->
        query_api_paginated env fuel url headers params page_size_default w
        = (Ok items, three_pages url params w)).
Proof.
  intros answer w1 round next.
  assert (Hround : round =
            match json_of answer with
            | Ok (VDict d) =>
                match d with
                | [] => (Ok acc, w1)
                | _ :: _ =>
                    match dict_get d "records" with
                    | None => (Ok acc, w1)
                    | Some records =>
                        let total' := default total (dict_get d "totalRecords") in
                        if negb (truthy records) then (Ok acc, w1)
                        else match py_iter records with
                             | None => (Raise TypeError, w1)
                             | Some more =>
                                 if truthy total' then
                                   match int_ge (Z.of_nat (length (acc ++ more))) total' with
                                   | None => (Raise TypeError, w1)
                                   | Some true => (Ok (acc ++ more), w1)
                                   | Some false => next (acc ++ more) total'
                                   end
                                 else next (acc ++ more) total'
                             end
                    end
                end
            | Ok _ => (Ok acc, w1)
            | Raise e => (Raise e, w1)
            | Diverge => (Diverge, w1)
            end).
  { unfold round. rewrite loop_round. reflexivity. }
  split; [reflexivity|].
  split; [intros Ha; rewrite Hround, Ha; reflexivity|].
  split; [intros code body Ha Hc; rewrite Hround, Ha; simpl; rewrite Hc; reflexivity|].
  split; [intros code failure Ha Hc; rewrite Hround, Ha; simpl; rewrite Hc; reflexivity|].
  split; [intros code Ha; rewrite Hround, Ha; simpl;
          destruct (raises_for_status code); reflexivity|].
  split; [intros code failure Ha Hc; rewrite Hround, Ha; simpl; rewrite Hc; reflexivity|].
  split; [|split].
  - intros code response Ha Hc.
    assert (Hjson : json_of answer = Ok response) by (rewrite Ha; simpl; rewrite Hc; reflexivity).
    rewrite Hjson in Hround. clear Hjson Ha Hc.
    split; [|split; [|split]].
    + intros Hm. rewrite Hround.
      destruct response as [| | | | |d]; try reflexivity.
      destruct d as [|kv d]; [reflexivity|].
      destruct Hm as [Hm|Hm]; [discriminate|]. rewrite Hm. reflexivity.
    + intros d records -> Hrec Hf. rewrite Hround, Hrec. cbv zeta. rewrite Hf.
      destruct d; reflexivity.
    + intros d records -> Hrec Htr Hit. rewrite Hround, Hrec. cbv zeta.
      rewrite Htr, Hit. destruct d as [|kv d]; [discriminate|]. reflexivity.
    + intros d records total' -> Hrec Hne Htot.
      assert (Hround' : round =
                if truthy total' then
                  match int_ge (Z.of_nat (length (acc ++ records))) total' with
                  | None => (Raise TypeError, w1)
                  | Some true => (Ok (acc ++ records), w1)
                  | Some false => next (acc ++ records) total'
                  end
                else next (acc ++ records) total').
      { rewrite Hround, Hrec. cbv zeta. rewrite Htot.
        destruct d as [|kv d]; [discriminate|].
        destruct records as [|x records]; [congruence|]. reflexivity. }
      split; [|split; [|split]].
      * intros n -> Hn Hle. rewrite Hround'. simpl.
        apply Z.eqb_neq in Hn. rewrite Hn. simpl.
        apply Z.leb_le in Hle. rewrite Hle. reflexivity.
      * intros n -> Hlt. rewrite Hround'. simpl.
        assert (Hn : (n =? 0) = false) by (apply Z.eqb_neq; lia). rewrite Hn. simpl.
        assert (Hle : (n <=? Z.of_nat (length (acc ++ records))) = false)
          by (apply Z.leb_gt; exact Hlt).
        rewrite Hle. reflexivity.
      * intros Hf. rewrite Hround', Hf. reflexivity.
      * intros Htr Hcmp. rewrite Hround', Htr, Hcmp. reflexivity.
  - intros r w' H. exact (loop_requests env url headers params page_size (S fuel)
                            acc page total w r w' H).
  - intros items Hlen Hserve Hfuel. replace fuel with (3 + (fuel - 3))%nat by lia.
    apply loop_fuel_mono; [apply fetch_three_pages; assumption | discriminate].
Qed.

Lemma pagination_witness :
  query_api_paginated (paged_backend (numbered 120)) 7 (queue_url radarr_base "v3")
    (api_headers "key") (Some (queue_params "Radarr0" false)) page_size_default fresh
  = (Ok (numbered 120),
     three_pages (queue_url radarr_base "v3") (Some (queue_params "Radarr0" false)) fresh)
  /\ query_api_paginated_loop env_down 7 (queue_url radarr_base "v3") (api_headers "key")
       (Some (queue_params "Radarr0" false)) 50 [VDict stalled_record] 2 (VInt 120) fresh
     = (Ok [VDict stalled_record],
        call_out fresh [EvGet (queue_url radarr_base "v3")
                          (paginated (Some (queue_params "Radarr0" false)) 2 50)]).
Proof.
  split.
  - pose proof (pagination (paged_backend (numbered 120)) (queue_url radarr_base "v3")
                  (api_headers "key") (Some (queue_params "Radarr0" false)) 50 7 [] 1
                  VNone fresh) as H.
    cbv zeta in H.
    apply (proj2 (proj2 (proj2 (proj2 (proj2 (proj2 (proj2 (proj2 H)))))))
             (numbered 120) eq_refl).
    + apply paged_backend_serves. reflexivity.
    + lia.
  - pose proof (pagination env_down (queue_url radarr_base "v3")
                  (api_headers "key") (Some (queue_params "Radarr0" false)) 50 6
                  [VDict stalled_record] 2 (VInt 120) fresh) as H.
    cbv zeta in H.
    apply (proj1 (proj2 H)). reflexivity.
Defined.

(** ** Exceptions and the loops *)




Section Cycle.

Variable cfg : Config.
Variable env : Env.

(** A cycle whose fetch brought records reads the store and runs the loop
    body on every record. *)
Lemma check_queue_and_act_fetched (fuel : nat) (base_url api_key service_name
    api_version : string) (metadata_check : bool) (w w1 : World) (x : value)
    (records : list value) :
  query_api_paginated env fuel (queue_url base_url api_version) (api_headers api_key)
    (Some (queue_params service_name metadata_check)) page_size_default w
  = (Ok (x :: records), w1) ->
  check_queue_and_act cfg env fuel base_url api_key service_name api_version
    metadata_check w
  = (db_stalled ← get_stalled_downloads_from_db service_name;
     for_each (check_item cfg env base_url (api_headers api_key) service_name
                 api_version metadata_check db_stalled) (x :: records)) w1.
Proof.
  intros H. unfold check_queue_and_act. cbv zeta. unfold mbind at 1, M_bind at 1.
  rewrite H. reflexivity.
Qed.

(** A cycle whose first request fails ends without an exception. *)
Lemma check_queue_and_act_fetch_failed (fuel : nat) (base_url api_key service_name
    api_version : string) (metadata_check : bool) (w : World) :
  json_of (http_get env (tick w) (queue_url base_url api_version) (api_headers api_key)
             (paginated (Some (queue_params service_name metadata_check)) 1
                page_size_default)) = Ok VNone ->
  check_queue_and_act cfg env (S fuel) base_url api_key service_name api_version
    metadata_check w
  = (Ok tt,
     call_out w [EvGet (queue_url base_url api_version)
                   (paginated (Some (queue_params service_name metadata_check)) 1
                      page_size_default)]).
Proof.
  intros H. unfold check_queue_and_act, query_api_paginated. cbv zeta.
  unfold mbind at 1, M_bind at 1. rewrite loop_round. cbv zeta. rewrite H. reflexivity.
Qed.

(** A cycle that has records to look at fails when the table is missing. *)
Lemma check_queue_and_act_no_table (fuel : nat) (base_url api_key service_name
    api_version : string) (metadata_check : bool) (w w1 : World) (x : value)
    (records : list value) :
  query_api_paginated env fuel (queue_url base_url api_version) (api_headers api_key)
    (Some (queue_params service_name metadata_check)) page_size_default w
  = (Ok (x :: records), w1) ->
  db w1 = None ->
  check_queue_and_act cfg env fuel base_url api_key service_name api_version
    metadata_check w
  = (Raise OperationalError, w1).
Proof.
  intros H Hdb. rewrite (check_queue_and_act_fetched _ _ _ _ _ _ _ _ _ _ H).
  unfold mbind, M_bind, get_stalled_downloads_from_db. rewrite Hdb. reflexivity.
Qed.


End Cycle.



(** C4, where the code departs from it.  With STALLED_TIMEOUT set to 0 the
    start of the program leaves the table uncreated, and the first cycle
    that finds a record in a queue reads the table and ends the program
    with the error of SQLite for a missing table. *)
Theorem timeout_zero_needs_table :
  initialize_database no_debounce fresh = (Ok tt, fresh)
  /\ fst (main no_debounce env_200 1 1 fresh) = Raise OperationalError
  /\ db (snd (main no_debounce env_200 1 1 fresh)) = None
  /\ fst (check_queue_and_act no_debounce env_200 1 radarr_base "key" "Radarr0" "v3"
            false fresh) = Raise OperationalError.
Proof. vm_compute. repeat split. Qed.

(** ** One row per key, throughout the program *)

Lemma keeps_ret {A : Type} (a : A) : keeps_inv (mret a).
Proof. intros w r w' Hinv H. injection H as <- <-. exact Hinv. Qed.

Lemma keeps_raise {A : Type} (e : exn) : keeps_inv (@raise A e).
Proof. intros w r w' Hinv H. injection H as <- <-. exact Hinv. Qed.

Lemma keeps_bind {A B : Type} (m : M A) (f : A -> M B) :
  keeps_inv m -> (forall a : A, keeps_inv (f a)) -> keeps_inv (m ≫= f).
Proof.
  intros Hm Hf w r w' Hinv H. unfold mbind, M_bind in H.
  destruct (m w) as [[a|e|] w1] eqn:E.
  - exact (Hf a w1 r w' (Hm w _ w1 Hinv E) H).
  - injection H as <- <-. exact (Hm w _ w1 Hinv E).
  - injection H as <- <-. exact (Hm w _ w1 Hinv E).
Qed.

(** A computation that leaves the table alone keeps its key. *)
Lemma keeps_same_db {A : Type} (m : M A) :
  (forall (w : World) (r : outcome A) (w' : World), m w = (r, w') -> db w' = db w) ->
  keeps_inv m.
Proof. intros Hm w r w' Hinv H. unfold db_inv in *. rewrite (Hm w r w' H). exact Hinv. Qed.

Section Invariant.

Variable cfg : Config.
Variable env : Env.

Lemma keeps_add (id : string) (fd : Z) (svc : string) :
  keeps_inv (add_stalled_download_to_db id fd svc).
Proof. intros w r w' Hinv H. exact (add_keeps_inv w w' id svc fd r Hinv H). Qed.

Lemma keeps_remove (id svc : string) : keeps_inv (remove_stalled_download_from_db id svc).
Proof. intros w r w' Hinv H. exact (remove_keeps_inv w w' id svc r Hinv H). Qed.

Lemma keeps_get (svc : string) : keeps_inv (get_stalled_downloads_from_db svc).
Proof.
  apply keeps_same_db. intros w r w' H. unfold get_stalled_downloads_from_db in H.
  destruct (db w) eqn:E; injection H as <- <-; exact E.
Qed.

Lemma keeps_initialize : keeps_inv (initialize_database cfg).
Proof.
  intros w r w' Hinv H. unfold initialize_database in H.
  destruct (STALLED_TIMEOUT cfg =? 0); [injection H as <- <-; exact Hinv|].
  destruct (db w) eqn:E; injection H as <- <-; [exact Hinv|].
  unfold db_inv. simpl. apply NoDup_nil_2.
Qed.

Lemma keeps_now : keeps_inv (datetime_now env).
Proof. apply keeps_same_db. intros w r w' H. injection H as <- <-. reflexivity. Qed.

Lemma keeps_perform_action (base_url : string) (headers : gmap string string)
    (id : string) (m : value) (svc api : string) (e s : value) :
  keeps_inv (perform_action cfg env base_url headers id m svc api e s).
Proof.
  apply keeps_same_db. intros w r w' H.
  destruct (perform_action_ok cfg env base_url headers id m svc api e s w)
    as [w1 [H1 Hdb]].
  rewrite H1 in H. injection H as <- <-. exact Hdb.
Qed.

Lemma keeps_fetch (fuel : nat) (url : string) (headers : gmap string string)
    (params : option (gmap string value)) (page_size : Z) :
  keeps_inv (query_api_paginated env fuel url headers params page_size).
Proof.
  apply keeps_same_db. intros w r w' H.
  destruct (loop_requests env url headers params page_size fuel [] 1 VNone w r w' H)
    as [n [_ [_ Hdb]]].
  exact Hdb.
Qed.

Lemma keeps_check_item (base_url : string) (headers : gmap string string)
    (svc api : string) (mc : bool) (db_stalled : gmap string Z) (item : value) :
  keeps_inv (check_item cfg env base_url headers svc api mc db_stalled item).
Proof.
  unfold check_item. apply keeps_bind.
  - apply keeps_same_db. intros w r w' H. injection H as <- <-. reflexivity.
  - intros target. destruct target; cbn [negb]; [|apply keeps_ret].
    destruct item; try apply keeps_raise.
    destruct (dict_get d "id"); [|apply keeps_raise].
    destruct (db_stalled !! _).
    + apply keeps_bind; [apply keeps_now|]. intros now.
      destruct (gt_int _ _); [|apply keeps_ret].
      apply keeps_bind; [apply keeps_perform_action | intros; apply keeps_remove].
    + apply keeps_bind; [apply keeps_now|]. intros now.
      apply keeps_bind; [apply keeps_add | intros; apply keeps_ret].
Qed.

Lemma keeps_for_each {A : Type} (f : A -> M unit) (l : list A) :
  (forall x : A, keeps_inv (f x)) -> keeps_inv (for_each f l).
Proof.
  intros Hf. induction l as [|x l IH]; cbn [for_each]; [apply keeps_ret|].
  apply keeps_bind; [apply Hf | intros; exact IH].
Qed.

Lemma keeps_check_queue_and_act (fuel : nat) (base_url api_key svc api : string)
    (mc : bool) :
  keeps_inv (check_queue_and_act cfg env fuel base_url api_key svc api mc).
Proof.
  unfold check_queue_and_act. cbv zeta. apply keeps_bind; [apply keeps_fetch|].
  intros records. destruct records as [|x records]; [apply keeps_ret|].
  apply keeps_bind; [apply keeps_get|]. intros db_stalled.
  apply keeps_for_each. intros item. apply keeps_check_item.
Qed.

Lemma keeps_api_key_at (keys : option (list string)) (i : nat) :
  keeps_inv (api_key_at keys i).
Proof.
  unfold api_key_at. destruct keys as [l|]; [|apply keeps_raise].
  destruct (l !! i); [apply keeps_ret | apply keeps_raise].
Qed.

Lemma keeps_sweep_service (fuel : nat) (name : string) (keys : option (list string))
    (urls : list string) :
  forall i : nat, keeps_inv (sweep_service cfg env fuel name keys i urls).
Proof.
  induction urls as [|url urls IH]; intros i; cbn [sweep_service]; [apply keeps_ret|].
  apply keeps_bind; [apply keeps_api_key_at|]. intros key.
  apply keeps_bind; [apply keeps_check_queue_and_act|]. intros _.
  apply keeps_bind; [|intros _; apply IH].
  destruct (COUNT_DOWNLOADING_METADATA_AS_STALLED cfg); [|apply keeps_ret].
  apply keeps_bind; [apply keeps_api_key_at|]. intros key'.
  apply keeps_check_queue_and_act.
Qed.

Lemma keeps_sweep (fuel : nat) : keeps_inv (sweep cfg env fuel).
Proof.
  unfold sweep. apply keeps_bind; [apply keeps_sweep_service|].
  intros _. apply keeps_sweep_service.
Qed.

Lemma keeps_main (fuel n : nat) : keeps_inv (main cfg env fuel n).
Proof.
  unfold main. apply keeps_bind; [apply keeps_initialize|]. intros _.
  induction n as [|n IH]; cbn [sweeps]; [apply keeps_ret|].
  apply keeps_bind; [apply keeps_sweep | intros _; exact IH].
Qed.

(** Whatever the backends answer and however long the program runs, the
    table never holds two rows for the same download and service. *)
Lemma one_row_per_key (fuel n : nat) :
  db_inv (snd (main cfg env fuel n fresh)).
Proof.
  destruct (main cfg env fuel n fresh) as [r w'] eqn:E.
  exact (keeps_main fuel n fresh r w' I E).
Qed.

End Invariant.

(** ** One key for both check modes *)

Lemma one_row_of_key (t : list row) (id svc : string) (fd : Z) :
  unique_keys t ->
  In {| download_id := id; first_detected := fd; arr_service := svc |} t ->
  length (List.filter (same_key id svc) t) = 1%nat.
Proof.
  unfold unique_keys. intros Hu Hin.
  induction t as [|x t IH]; [destruct Hin|].
  simpl in Hu. apply NoDup_cons in Hu. destruct Hu as [Hn Hu]. simpl.
  destruct Hin as [->|Hin].
  - replace (same_key id svc _) with true
      by (symmetry; apply same_key_spec; reflexivity).
    simpl. f_equal.
    destruct (List.filter (same_key id svc) t) as [|y l] eqn:F; [reflexivity|].
    exfalso. apply Hn.
    assert (Hy : In y (List.filter (same_key id svc) t)) by (rewrite F; left; auto).
    apply filter_In in Hy. destruct Hy as [Hy1 Hy2]. apply same_key_spec in Hy2.
    change (key_of _) with (id, svc). rewrite <- Hy2.
    apply list_elem_of_In, in_map. exact Hy1.
  - destruct (same_key id svc x) eqn:E; [|apply IH; assumption].
    exfalso. apply Hn. apply same_key_spec in E. rewrite E.
    apply list_elem_of_In, in_map_iff. eexists. split; [|exact Hin]. reflexivity.
Qed.

(** C7.  When the table already holds a row for the pair of download id
    and service, inserting that pair again changes nothing and reports that
    no row was added: the row keeps its first detection time, which is what
    the next read of the service yields, and it is the only row of the
    pair.  Whatever the backends answer, after any number of passes of the
    program the table has at most one row per pair. *)
Theorem insert_existing_is_noop (w : World) (t : list row) (id svc : string)
    (fd fd' : Z) :
  db w = Some t -> unique_keys t ->
  In {| download_id := id; first_detected := fd; arr_service := svc |} t ->
  add_stalled_download_to_db id fd' svc w = (Ok false, w)
  /\ get_stalled_downloads_from_db svc w = (Ok (snapshot svc t), w)
  /\ snapshot svc t !! id = Some fd
  /\ length (List.filter (same_key id svc) t) = 1%nat
  /\ (forall (cfg : Config) (env : Env) (fuel n : nat),
        db_inv (snd (main cfg env fuel n fresh))).
Proof.
  intros Hdb Hu Hin.
  assert (He : existsb (same_key id svc) t = true).
  { apply existsb_exists. eexists. split; [exact Hin|]. apply same_key_spec. reflexivity. }
  split; [|split; [|split; [|split]]].
  - apply add_present with (t := t); assumption.
  - unfold get_stalled_downloads_from_db. rewrite Hdb. reflexivity.
  - apply (snapshot_present svc t _ Hu Hin). reflexivity.
  - exact (one_row_of_key t id svc fd Hu Hin).
  - intros cfg env fuel n. apply one_row_per_key.
Qed.

Lemma insert_existing_is_noop_witness :
  add_stalled_download_to_db "42" 905000000 "Radarr0" tracked_42 = (Ok false, tracked_42)
  /\ snapshot "Radarr0" [row_42] !! "42" = Some 0.
Proof.
  assert (Hu : unique_keys [row_42]) by apply NoDup_singleton.
  pose proof (insert_existing_is_noop tracked_42 [row_42] "42" "Radarr0" 0 905000000
                eq_refl Hu (or_introl eq_refl)) as H.
  split; [exact (proj1 H) | exact (proj1 (proj2 (proj2 H)))].
Defined.

Section Modes.

Variable cfg : Config.
Variable env : Env.
Variables (base_url : string) (headers : gmap string string).
Variables (service_name api_version : string).


End Modes.


(** * Further properties of the code *)

(** ** What [perform_action] sends *)

Section Requests.

Variable cfg : Config.
Variable env : Env.
Variables (base_url : string) (headers : gmap string string).
Variables (id service_name api_version : string).
Variables (movie_id episode_ids series_id : value).

(** X1.  [perform_action] always sends the delete first, with the blocklist
    parameters, and then at most one command; a command is only sent under
    BLOCKLIST_AND_SEARCH after a delete that succeeded, it goes to the
    command URL of the same backend, and it is the EpisodeSearch, the
    SeriesSearch or the MoviesSearch of the ids it was given.  The table is
    not touched and no exception is raised. *)
Theorem perform_action_requests (w : World) :
  exists (w' : World) (commands : list event),
    perform_action cfg env base_url headers id movie_id service_name api_version
      episode_ids series_id w = (Ok tt, w')
    /\ db w' = db w
    /\ trace w' =
       trace w ++ EvDelete (action_url base_url api_version id) blocklist_params
                  :: commands
    /\ (commands = []
        \/ (STALLED_ACTION cfg = "BLOCKLIST_AND_SEARCH"
            /\ delete_ok (http_delete env (tick w) (action_url base_url api_version id)
                            headers blocklist_params) = true
            /\ exists body : value,
                 commands = [EvPost (command_url base_url api_version) body]
                 /\ (body = episode_search episode_ids
                     \/ body = series_search series_id
                     \/ body = movies_search movie_id))).
Proof.
  unfold perform_action, mbind, M_bind. rewrite delete_api_eq.
  destruct (delete_ok _) eqn:Hok;
    destruct (String.eqb (STALLED_ACTION cfg) "REMOVE") eqn:Hrem;
    destruct (String.eqb (STALLED_ACTION cfg) "BLOCKLIST_AND_SEARCH") eqn:Hact;
    try apply String.eqb_eq in Hact;
    try (rewrite Hact in Hrem; discriminate);
    cbn [negb andb];
    destruct (startswith service_name "Sonarr");
    destruct (startswith service_name "Radarr");
    destruct (truthy episode_ids);
    destruct (truthy series_id);
    destruct (truthy movie_id);
    cbn [negb andb];
    rewrite ?post_api_eq; eexists; eexists;
    (split; [reflexivity|]); (split; [reflexivity|]);
    (split; [cbn [trace call_out]; rewrite <- ?app_assoc; reflexivity|]);
    first [ left; reflexivity
          | right; split; [exact Hact|]; split; [reflexivity|];
            eexists; split; [reflexivity|]; auto ].
Qed.

(** X2.  Under every action other than BLOCKLIST_AND_SEARCH, REMOVE among
    them, [perform_action] sends the delete and nothing else, whatever the
    backend answers. *)
Theorem remove_only_deletes (w : World) :
  STALLED_ACTION cfg <> "BLOCKLIST_AND_SEARCH" ->
  perform_action cfg env base_url headers id movie_id service_name api_version
    episode_ids series_id w
  = (Ok tt, call_out w [EvDelete (action_url base_url api_version id) blocklist_params]).
Proof.
  intros Hact. apply String.eqb_neq in Hact.
  unfold perform_action, mbind, M_bind. rewrite delete_api_eq, Hact.
  destruct (negb _ && negb _); reflexivity.
Qed.

(** X3.  Whatever the action, no command is sent for a service whose name
    starts with neither Sonarr nor Radarr, nor for a Radarr record without a
    movie id: the delete is the only request. *)
Theorem no_search_without_target (w : World) :
  startswith service_name "Sonarr" = false ->
  startswith service_name "Radarr" = false \/ truthy movie_id = false ->
  perform_action cfg env base_url headers id movie_id service_name api_version
    episode_ids series_id w
  = (Ok tt, call_out w [EvDelete (action_url base_url api_version id) blocklist_params]).
Proof.
  intros Hson Hno.
  assert (Hrad : startswith service_name "Radarr" && truthy movie_id = false)
    by (destruct Hno as [-> | ->]; [reflexivity | apply andb_false_r]).
  unfold perform_action, mbind, M_bind. rewrite delete_api_eq, Hson, Hrad.
  destruct (negb _ && negb _); [reflexivity|].
  destruct (String.eqb _ _); reflexivity.
Qed.

End Requests.

Lemma remove_only_deletes_witness :
  perform_action remove_config env_500 radarr_base (api_headers "key") "42" (VInt 7)
    "Radarr0" "v3" VNone VNone tracked_42
  = (Ok tt, call_out tracked_42 [EvDelete (action_url radarr_base "v3" "42")
                                   blocklist_params]).
Proof.
  apply (remove_only_deletes remove_config env_500 radarr_base (api_headers "key") "42"
           "Radarr0" "v3" (VInt 7) VNone VNone tracked_42).
  discriminate.
Defined.

Lemma no_search_without_target_witness :
  perform_action search_config env_200 radarr_base (api_headers "key") "42" (VInt 7)
    lidarr_name "v1" VNone VNone tracked_42
  = (Ok tt, call_out tracked_42 [EvDelete (action_url radarr_base "v1" "42")
                                   blocklist_params]).
Proof.
  apply (no_search_without_target search_config env_200 radarr_base (api_headers "key")
           "42" lidarr_name "v1" (VInt 7) VNone VNone tracked_42).
  - reflexivity.
  - left. reflexivity.
Defined.

(** ** Writing to the store and reading it back *)

Lemma snapshot_app_row (service : string) (t : list row) (r : row) :
  snapshot service (t ++ [r]) =
  if String.eqb (arr_service r) service
  then <[download_id r := first_detected r]> (snapshot service t)
  else snapshot service t.
Proof.
  unfold snapshot. rewrite List.filter_app. cbn [List.filter].
  destruct (String.eqb (arr_service r) service).
  - rewrite foldl_app. reflexivity.
  - rewrite app_nil_r. reflexivity.
Qed.

Lemma filter_filter_implied {A : Type} (f g : A -> bool) (l : list A) :
  (forall x : A, f x = true -> g x = true) ->
  List.filter f (List.filter g l) = List.filter f l.
Proof.
  intros Hfg. induction l as [|x l IH]; [reflexivity|]. cbn [List.filter].
  destruct (g x) eqn:G; cbn [List.filter].
  - rewrite IH. reflexivity.
  - destruct (f x) eqn:F; [|exact IH]. rewrite (Hfg x F) in G. discriminate.
Qed.

Lemma filter_comm {A : Type} (f g : A -> bool) (l : list A) :
  List.filter f (List.filter g l) = List.filter g (List.filter f l).
Proof.
  induction l as [|x l IH]; [reflexivity|]. cbn [List.filter].
  destruct (g x) eqn:G, (f x) eqn:F; cbn [List.filter]; rewrite ?G, ?F, IH; reflexivity.
Qed.

Lemma find_filter_implied {A : Type} (f g : A -> bool) (l : list A) :
  (forall x : A, f x = true -> g x = true) ->
  find f (List.filter g l) = find f l.
Proof.
  intros Hfg. induction l as [|x l IH]; [reflexivity|]. cbn [List.filter find].
  destruct (g x) eqn:G; cbn [find]; destruct (f x) eqn:F; auto.
  rewrite (Hfg x F) in G. discriminate.
Qed.

(** Deleting the row of one download leaves what is read for the others. *)
Lemma snapshot_without_other (service id id' : string) (t : list row) :
  id' <> id ->
  snapshot service (without id service t) !! id' = snapshot service t !! id'.
Proof.
  intros Hne. unfold snapshot, without. rewrite !foldl_insert_lookup.
  rewrite filter_comm, <- filter_rev, find_filter_implied; [reflexivity|].
  intros r Hr. apply String.eqb_eq in Hr. unfold same_key.
  destruct (String.eqb (download_id r) id) eqn:E; [|reflexivity].
  apply String.eqb_eq in E. congruence.
Qed.

(** Deleting a row of one service leaves what is read for the others. *)
Lemma snapshot_without_service (service service' id : string) (t : list row) :
  service' <> service ->
  snapshot service' (without id service t) = snapshot service' t.
Proof.
  intros Hne. unfold snapshot, without. rewrite filter_filter_implied; [reflexivity|].
  intros r Hr. apply String.eqb_eq in Hr. unfold same_key.
  destruct (String.eqb (arr_service r) service) eqn:E;
    [|rewrite andb_false_r; reflexivity].
  apply String.eqb_eq in E. congruence.
Qed.

(** X4.  A download that is inserted while the table has no row for it is
    what the next read of its service returns, with the time it was inserted
    with; the read returns for every other download what it returned
    before, and reads of other services are not affected. *)
Theorem insert_then_read (w : World) (t : list row) (id svc : string) (fd : Z) :
  db w = Some t ->
  existsb (same_key id svc) t = false ->
  exists w1 : World,
    add_stalled_download_to_db id fd svc w = (Ok true, w1)
    /\ (exists m : gmap string Z,
          get_stalled_downloads_from_db svc w1 = (Ok m, w1)
          /\ m !! id = Some fd
          /\ (forall id' : string, id' <> id -> m !! id' = snapshot svc t !! id'))
    /\ (forall svc' : string,
          svc' <> svc -> get_stalled_downloads_from_db svc' w1 = (Ok (snapshot svc' t), w1)).
Proof.
  intros Hdb Habs. eexists. split; [exact (add_absent w t id svc fd Hdb Habs)|].
  split.
  - eexists. split; [reflexivity|]. fold (snapshot svc (t ++ [{| download_id := id;
      first_detected := fd; arr_service := svc |}])).
    rewrite snapshot_app_row. cbn [arr_service download_id first_detected].
    rewrite String.eqb_refl. split.
    + apply lookup_insert_eq.
    + intros id' Hne. apply lookup_insert_ne. congruence.
  - intros svc' Hne. unfold get_stalled_downloads_from_db. cbn [db set_db].
    fold (snapshot svc' (t ++ [{| download_id := id; first_detected := fd;
                                  arr_service := svc |}])).
    rewrite snapshot_app_row. cbn [arr_service].
    destruct (String.eqb svc svc') eqn:E; [|reflexivity].
    apply String.eqb_eq in E. congruence.
Qed.

(** X5.  After the row of a download is deleted, the next read of its
    service no longer holds the download and returns for every other
    download what it returned before; reads of other services are not
    affected; and inserting the download again adds a row, so that its timer
    starts anew. *)
Theorem delete_then_read (w : World) (t : list row) (id svc : string) (fd : Z) :
  db w = Some t ->
  exists w1 : World,
    remove_stalled_download_from_db id svc w = (Ok tt, w1)
    /\ (exists m : gmap string Z,
          get_stalled_downloads_from_db svc w1 = (Ok m, w1)
          /\ m !! id = None
          /\ (forall id' : string, id' <> id -> m !! id' = snapshot svc t !! id'))
    /\ (forall svc' : string,
          svc' <> svc -> get_stalled_downloads_from_db svc' w1 = (Ok (snapshot svc' t), w1))
    /\ (exists w2 : World,
          add_stalled_download_to_db id fd svc w1 = (Ok true, w2)
          /\ exists m : gmap string Z,
               get_stalled_downloads_from_db svc w2 = (Ok m, w2) /\ m !! id = Some fd).
Proof.
  intros Hdb.
  exists (set_db (Some (without id svc t)) w).
  split; [unfold remove_stalled_download_from_db; rewrite Hdb; reflexivity|].
  split; [|split].
  - exists (snapshot svc (without id svc t)). split; [reflexivity|]. split.
    + apply snapshot_absent, without_absent.
    + intros id' Hne. apply snapshot_without_other. exact Hne.
  - intros svc' Hne. unfold get_stalled_downloads_from_db. cbn [db set_db].
    fold (snapshot svc' (without id svc t)).
    rewrite snapshot_without_service by exact Hne. reflexivity.
  - destruct (insert_then_read (set_db (Some (without id svc t)) w) (without id svc t)
                id svc fd eq_refl (without_absent id svc t))
      as [w2 [Hadd [[m [Hget [Hm _]]] _]]].
    exists w2. split; [exact Hadd|]. exists m. split; assumption.
Qed.

Lemma insert_then_read_witness :
  exists w1 : World,
    add_stalled_download_to_db "43" 5 "Radarr0" tracked_42 = (Ok true, w1)
    /\ exists m : gmap string Z,
         get_stalled_downloads_from_db "Radarr0" w1 = (Ok m, w1)
         /\ m !! "43" = Some 5 /\ m !! "42" = Some 0.
Proof.
  destruct (insert_then_read tracked_42 [row_42] "43" "Radarr0" 5 eq_refl eq_refl)
    as [w1 [Hadd [[m [Hget [Hm Hother]]] _]]].
  exists w1. split; [exact Hadd|]. exists m. split; [exact Hget|]. split; [exact Hm|].
  rewrite Hother by discriminate. reflexivity.
Defined.

Lemma delete_then_read_witness :
  exists w1 : World,
    remove_stalled_download_from_db "42" "Radarr0" tracked_42 = (Ok tt, w1)
    /\ exists m : gmap string Z,
         get_stalled_downloads_from_db "Radarr0" w1 = (Ok m, w1) /\ m !! "42" = None.
Proof.
  destruct (delete_then_read tracked_42 [row_42] "42" "Radarr0" 0 eq_refl)
    as [w1 [Hrem [[m [Hget [Hm _]]] _]]].
  exists w1. split; [exact Hrem|]. exists m. split; assumption.
Defined.

(** ** Errors of the loop body *)

Section Body.

Variable cfg : Config.
Variable env : Env.
Variables (base_url : string) (headers : gmap string string).
Variables (service_name api_version : string) (metadata_check : bool).
Variable db_stalled : gmap string Z.

Local Abbreviation body :=
  (check_item cfg env base_url headers service_name api_version metadata_check
     db_stalled).

(** X6.  The loop body fails before it has any effect: on a record that is
    no dict and on a record whose error message is not a string with an
    AttributeError, on a target without id with the KeyError of that key; in
    each case nothing was requested, the clock was not read and the store
    was not touched.  A record that is not a target is skipped in the same
    way, whether it has an id or not. *)
Theorem check_item_fails_early (w : World) :
  (forall item : value, ~ is_dict item -> body item w = (Raise AttributeError, w))
  /\ (forall (d : list (string * value)) (v : value),
        dict_get d "errorMessage" = Some v -> ~ is_str v ->
        body (VDict d) w = (Raise AttributeError, w))
  /\ (forall d : list (string * value),
        is_target metadata_check (VDict d) = Ok true -> dict_get d "id" = None ->
        body (VDict d) w = (Raise (KeyError "id"), w))
  /\ (forall item : value,
        is_target metadata_check item = Ok false -> body item w = (Ok tt, w)).
Proof.
  split; [|split; [|split]].
  - intros item Hnd. destruct item; try reflexivity. exfalso. apply Hnd. exact I.
  - intros d v Hv Hns. unfold check_item, lift, mbind, M_bind, is_target, error_msg,
      item_get. rewrite Hv. cbn [default].
    destruct v; try reflexivity. exfalso. apply Hns. exact I.
  - intros d Ht Hid. unfold check_item, lift, mbind, M_bind. rewrite Ht, Hid. reflexivity.
  - intros item Ht. unfold check_item, lift, mbind, M_bind. rewrite Ht. reflexivity.
Qed.



End Body.

Lemma check_item_fails_early_witness :
  check_item search_config env_200 radarr_base (api_headers "key") "Radarr0" "v3" false
    ∅ (VDict null_message_record) tracked_42 = (Raise AttributeError, tracked_42)
  /\ check_item search_config env_200 radarr_base (api_headers "key") "Radarr0" "v3"
       false ∅ (VDict nameless_record) tracked_42 = (Raise (KeyError "id"), tracked_42).
Proof.
  pose proof (check_item_fails_early search_config env_200 radarr_base
                (api_headers "key") "Radarr0" "v3" false ∅ tracked_42) as H.
  split.
  - apply (proj1 (proj2 H) null_message_record VNone); [reflexivity | intros []].
  - apply (proj1 (proj2 (proj2 H))); reflexivity.
Defined.


(** ** A cycle over an empty queue *)

Section Idle.

Variable cfg : Config.
Variable env : Env.

(** X8.  A cycle whose first request fails, or whose first answer is
    malformed or holds an empty page, ends normally after that one request
    and never reads the store, so that it also succeeds while the table does
    not exist. *)
Theorem empty_queue_skips_store (fuel : nat) (base_url api_key service_name
    api_version : string) (metadata_check : bool) (w : World) (answer : value) :
  json_of (http_get env (tick w) (queue_url base_url api_version) (api_headers api_key)
             (paginated (Some (queue_params service_name metadata_check)) 1
                page_size_default)) = Ok answer ->
  malformed answer
  \/ (exists d : list (string * value),
        answer = VDict d /\ dict_get d "records" = Some (VList [])) ->
  check_queue_and_act cfg env (S fuel) base_url api_key service_name api_version
    metadata_check w
  = (Ok tt, call_out w [first_poll base_url api_version service_name metadata_check]).
Proof.
  intros Ha H. unfold check_queue_and_act, query_api_paginated. cbv zeta.
  unfold mbind at 1, M_bind at 1. rewrite loop_round. cbv zeta. rewrite Ha.
  destruct H as [Hm | [d [Hd Hrec]]].
  - destruct answer as [| | | | |d]; try reflexivity.
    destruct d as [|kv d]; [reflexivity|].
    destruct Hm as [Hm|Hm]; [discriminate|]. rewrite Hm. reflexivity.
  - rewrite Hd, Hrec. destruct d; reflexivity.
Qed.

End Idle.

Lemma empty_queue_skips_store_witness :
  check_queue_and_act no_debounce env_idle 1 radarr_base "key" "Radarr0" "v3" false fresh
  = (Ok tt, call_out fresh [first_poll radarr_base "v3" "Radarr0" false]).
Proof.
  apply (empty_queue_skips_store no_debounce env_idle 0 radarr_base "key" "Radarr0" "v3"
           false fresh
           (VDict [("records", VList []); ("totalRecords", VInt 0)]) eq_refl).
  right. eexists. split; reflexivity.
Defined.

(** ** Which rows a cycle can change *)

Section Frame.

Variable cfg : Config.
Variable env : Env.
Variables (base_url : string) (headers : gmap string string).
Variables (service_name api_version : string) (metadata_check : bool).
Variable db_stalled : gmap string Z.

Local Abbreviation body :=
  (check_item cfg env base_url headers service_name api_version metadata_check
     db_stalled).

(** What the loop body can do to the table: nothing, add a row for the id
    of the record, or delete the row of that id. *)
Lemma check_item_db (item : value) (w : World) (r : outcome unit) (w' : World) :
  body item w = (r, w') ->
  db w' = db w
  \/ exists (d : list (string * value)) (raw : value) (t : list row),
       item = VDict d /\ dict_get d "id" = Some raw /\ db w = Some t
       /\ ((exists fd : Z,
              db w' = Some (t ++ [{| download_id := py_str raw; first_detected := fd;
                                     arr_service := service_name |}]))
           \/ db w' = Some (without (py_str raw) service_name t)).
Proof.
  unfold check_item, lift. unfold mbind at 1, M_bind at 1.
  destruct (is_target metadata_check item) as [b|e|];
    [|intros H; injection H as <- <-; left; reflexivity
     |intros H; injection H as <- <-; left; reflexivity].
  destruct b; cbn [negb]; [|intros H; injection H as <- <-; left; reflexivity].
  destruct item as [| | | | |d];
    try (intros H; injection H as <- <-; left; reflexivity).
  destruct (dict_get d "id") as [raw|] eqn:Hraw;
    [|intros H; injection H as <- <-; left; reflexivity].
  destruct (db_stalled !! py_str raw) as [detected|].
  - unfold mbind at 1, M_bind at 1, datetime_now. destruct (gt_int _ _).
    + destruct (perform_action_ok cfg env base_url headers (py_str raw)
                  (default VNone (dict_get d "movieId")) service_name api_version
                  (episode_ids_of d) (default VNone (dict_get d "seriesId"))
                  (call_out w [])) as [w1 [Hp Hdb1]].
      unfold mbind, M_bind. rewrite Hp. unfold remove_stalled_download_from_db.
      rewrite Hdb1. cbn [db call_out].
      destruct (db w) as [t|] eqn:Ht; intros H; injection H as <- <-.
      * right. exists d, raw, t. split; [reflexivity|]. split; [exact Hraw|].
        split; [reflexivity|]. right. reflexivity.
      * left. rewrite Hdb1. exact Ht.
    + intros H. injection H as <- <-. left. reflexivity.
  - unfold mbind, M_bind, datetime_now, add_stalled_download_to_db. cbn [db call_out].
    destruct (db w) as [t|] eqn:Ht;
      [|intros H; injection H as <- <-; left; cbn [db call_out]; exact Ht].
    destruct (existsb _ t); intros H; injection H as <- <-.
    + left. cbn [db call_out]. exact Ht.
    + right. exists d, raw, t. split; [reflexivity|]. split; [exact Hraw|].
      split; [reflexivity|]. left. eexists. reflexivity.
Qed.

(** X9.  The loop over the fetched records only adds and deletes rows whose
    key is the id of a fetched record together with the service of the
    cycle: every other row, be it of another instance or of a download that
    is no longer in the queue, is in the table afterwards iff it was there
    before, whether the loop ends normally or with an exception. *)
Theorem rows_outside_queue_untouched (records : list value) :
  forall (w : World) (r : outcome unit) (w' : World) (t : list row),
    for_each body records w = (r, w') ->
    db w = Some t ->
    exists t' : list row,
      db w' = Some t'
      /\ forall x : row,
           ~ fetched_key service_name records (key_of x) -> (In x t' <-> In x t).
Proof.
  induction records as [|item records IH]; intros w r w' t H Hdb.
  - injection H as <- <-. exists t. split; [exact Hdb | tauto].
  - cbn [for_each] in H. unfold mbind, M_bind in H.
    destruct (body item w) as [r1 w1] eqn:H1.
    assert (Hstep : exists t1 : list row,
               db w1 = Some t1
               /\ forall x : row,
                    ~ fetched_key service_name (item :: records) (key_of x) ->
                    (In x t1 <-> In x t)).
    { destruct (check_item_db item w r1 w1 H1)
        as [Hsame | [d [raw [t0 [-> [Hraw [Hdb0 Hch]]]]]]].
      - exists t. rewrite Hsame. split; [exact Hdb | tauto].
      - rewrite Hdb in Hdb0. injection Hdb0 as <-.
        assert (Hk : forall x : row,
                   ~ fetched_key service_name (VDict d :: records) (key_of x) ->
                   key_of x <> (py_str raw, service_name)).
        { intros x Hx Heq. apply Hx. exists d, raw. split; [left; reflexivity | auto]. }
        destruct Hch as [[fd Hadd] | Hrem].
        + eexists. split; [exact Hadd|]. intros x Hx. rewrite in_app_iff. split; [|tauto].
          intros [Hin | [<- | []]]; [exact Hin|]. exfalso. exact (Hk _ Hx eq_refl).
        + eexists. split; [exact Hrem|]. intros x Hx. unfold without.
          rewrite filter_In. split; [tauto|]. intros Hin. split; [exact Hin|].
          destruct (same_key (py_str raw) service_name x) eqn:E; [|reflexivity].
          apply same_key_spec in E. exfalso. exact (Hk x Hx E). }
    destruct Hstep as [t1 [Hdb1 Hrows1]].
    assert (Hweaken : forall x : row,
               ~ fetched_key service_name (item :: records) (key_of x) ->
               ~ fetched_key service_name records (key_of x)).
    { intros x Hx [d [raw [Hin Hrest]]]. apply Hx. exists d, raw.
      split; [right; exact Hin | exact Hrest]. }
    destruct r1 as [[]|e|].
    + destruct (IH w1 r w' t1 H Hdb1) as [t' [Hdb' Hrows']].
      exists t'. split; [exact Hdb'|]. intros x Hx.
      rewrite (Hrows' x (Hweaken x Hx)). apply Hrows1. exact Hx.
    + injection H as <- <-. exists t1. split; [exact Hdb1 | exact Hrows1].
    + injection H as <- <-. exists t1. split; [exact Hdb1 | exact Hrows1].
Qed.


End Frame.

Lemma rows_outside_queue_untouched_witness :
  exists t' : list row,
    db (snd (for_each (check_item search_config env_200 radarr_base (api_headers "key")
                         "Radarr0" "v3" false
                         (snapshot "Radarr0" [row_sonarr; row_gone; row_42]))
               [VDict stalled_record] mixed_store)) = Some t'
    /\ (In row_sonarr t' <-> In row_sonarr [row_sonarr; row_gone; row_42])
    /\ (In row_gone t' <-> In row_gone [row_sonarr; row_gone; row_42]).
Proof.
  destruct (rows_outside_queue_untouched search_config env_200 radarr_base
              (api_headers "key") "Radarr0" "v3" false
              (snapshot "Radarr0" [row_sonarr; row_gone; row_42])
              [VDict stalled_record] mixed_store _ _ [row_sonarr; row_gone; row_42]
              (surjective_pairing _) eq_refl) as [t' [Hdb Hrows]].
  exists t'. split; [exact Hdb|]. split; apply Hrows.
  - intros [d [raw [[Hin | []] [Hraw Hk]]]]. injection Hin as <-.
    injection Hraw as <-. discriminate Hk.
  - intros [d [raw [[Hin | []] [Hraw Hk]]]]. injection Hin as <-.
    injection Hraw as <-. discriminate Hk.
Defined.


(** ** The timer after a remediation *)

Section Restart.

Variable cfg : Config.
Variable env : Env.
Variables (base_url : string) (headers : gmap string string).
Variables (service_name api_version : string) (metadata_check : bool).

(** X11.  Once the remediation of a record has run, whatever the backend
    answered to the delete, the row of the record is gone; if the record is
    still a target in a later cycle, the dict read from the store does not
    hold it and the loop body inserts it again with the time of that cycle,
    so that it waits for a whole timeout before the next remediation. *)
Theorem timer_restarts_after_remediation (db_stalled : gmap string Z) (t : list row)
    (d : list (string * value)) (raw : value) (detected : Z) (w : World) :
  is_target metadata_check (VDict d) = Ok true ->
  dict_get d "id" = Some raw ->
  db w = Some t ->
  db_stalled !! py_str raw = Some detected ->
  (inject_Z (STALLED_TIMEOUT cfg) < elapsed_at env w detected)%Q ->
  let left_over := without (py_str raw) service_name t in
  exists w1 : World,
    check_item cfg env base_url headers service_name api_version metadata_check
      db_stalled (VDict d) w = (Ok tt, w1)
    /\ db w1 = Some left_over
    /\ forall w2 : World,
         db w2 = Some left_over ->
         get_stalled_downloads_from_db service_name w2
         = (Ok (snapshot service_name left_over), w2)
         /\ snapshot service_name left_over !! py_str raw = None
         /\ check_item cfg env base_url headers service_name api_version metadata_check
              (snapshot service_name left_over) (VDict d) w2
            = (Ok tt,
               set_db (Some (left_over ++ [{| download_id := py_str raw;
                                              first_detected := utcnow env (tick w2);
                                              arr_service := service_name |}]))
                 (call_out w2 [])).
Proof.
  intros Ht Hid Hdb Hold Hgt left_over. apply gt_int_spec in Hgt.
  destruct (check_item_due cfg env base_url headers service_name api_version
              metadata_check db_stalled t d raw detected w Ht Hid Hdb Hold Hgt)
    as [w1 [_ Hc]].
  eexists. split; [exact Hc|]. split; [reflexivity|].
  intros w2 Hdb2.
  assert (Habs : existsb (same_key (py_str raw) service_name) left_over = false)
    by apply without_absent.
  split; [unfold get_stalled_downloads_from_db; rewrite Hdb2; reflexivity|].
  split; [apply snapshot_absent; exact Habs|].
  rewrite (check_item_new _ _ _ _ _ _ _ _ _ _ _ Ht Hid (snapshot_absent _ _ _ Habs)).
  unfold mbind, M_bind.
  rewrite (add_absent (call_out w2 []) left_over (py_str raw) service_name _ Hdb2 Habs).
  reflexivity.
Qed.

End Restart.

Lemma timer_restarts_after_remediation_witness :
  exists w1 : World,
    check_item search_config env_500 radarr_base (api_headers "key") "Radarr0" "v3" false
      (snapshot "Radarr0" [row_42]) (VDict stalled_record) tracked_42 = (Ok tt, w1)
    /\ db w1 = Some [].
Proof.
  destruct (timer_restarts_after_remediation search_config env_500 radarr_base
              (api_headers "key") "Radarr0" "v3" false (snapshot "Radarr0" [row_42])
              [row_42] stalled_record (VInt 42) 0 tracked_42
              eq_refl eq_refl eq_refl eq_refl eq_refl) as [w1 [Hc [Hdb _]]].
  exists w1. split; [exact Hc | exact Hdb].
Defined.

(** ** The table, once created, is never missed *)

Lemma safe_ret {A : Type} (a : A) : table_safe (mret a).
Proof. intros w r w' Hdb H. injection H as <- <-. split; [exact Hdb | discriminate]. Qed.

Lemma safe_raise {A : Type} (e : exn) : e <> OperationalError -> table_safe (@raise A e).
Proof.
  intros He w r w' Hdb H. injection H as <- <-. split; [exact Hdb | congruence].
Qed.

Lemma safe_bind {A B : Type} (m : M A) (f : A -> M B) :
  table_safe m -> (forall a : A, table_safe (f a)) -> table_safe (m ≫= f).
Proof.
  intros Hm Hf w r w' Hdb H. unfold mbind, M_bind in H.
  destruct (m w) as [[a|e|] w1] eqn:E.
  - exact (Hf a w1 r w' (proj1 (Hm w _ w1 Hdb E)) H).
  - injection H as <- <-. destruct (Hm w _ w1 Hdb E) as [H1 H2].
    split; [exact H1 | congruence].
  - injection H as <- <-. split; [exact (proj1 (Hm w _ w1 Hdb E)) | discriminate].
Qed.

Lemma initialize_database_eq (cfg : Config) (w : World) :
  initialize_database cfg w
  = (Ok tt, if STALLED_TIMEOUT cfg =? 0 then w
            else match db w with Some _ => w | None => set_db (Some []) w end).
Proof.
  unfold initialize_database. destruct (STALLED_TIMEOUT cfg =? 0); [reflexivity|].
  destruct (db w); reflexivity.
Qed.

Section Safe.

Variable cfg : Config.
Variable env : Env.

Lemma safe_add (id : string) (fd : Z) (svc : string) :
  table_safe (add_stalled_download_to_db id fd svc).
Proof.
  intros w r w' Hdb H. unfold add_stalled_download_to_db in H.
  destruct (db w) as [t|] eqn:E; [|congruence].
  destruct (existsb _ t); injection H as <- <-; cbn [db set_db]; rewrite ?E;
    split; discriminate.
Qed.

Lemma safe_remove (id svc : string) : table_safe (remove_stalled_download_from_db id svc).
Proof.
  intros w r w' Hdb H. unfold remove_stalled_download_from_db in H.
  destruct (db w) as [t|] eqn:E; [|congruence].
  injection H as <- <-. split; discriminate.
Qed.

Lemma safe_get (svc : string) : table_safe (get_stalled_downloads_from_db svc).
Proof.
  intros w r w' Hdb H. unfold get_stalled_downloads_from_db in H.
  destruct (db w) as [t|] eqn:E; [|congruence].
  injection H as <- <-. rewrite E. split; discriminate.
Qed.

Lemma safe_now : table_safe (datetime_now env).
Proof. intros w r w' Hdb H. injection H as <- <-. split; [exact Hdb | discriminate]. Qed.

Lemma safe_perform_action (base_url : string) (headers : gmap string string)
    (id : string) (m : value) (svc api : string) (e s : value) :
  table_safe (perform_action cfg env base_url headers id m svc api e s).
Proof.
  intros w r w' Hdb H.
  destruct (perform_action_ok cfg env base_url headers id m svc api e s w)
    as [w1 [H1 Hdb1]].
  rewrite H1 in H. injection H as <- <-. rewrite Hdb1. split; [exact Hdb | discriminate].
Qed.

Lemma json_of_no_table_error (r : http_result) : json_of r <> Raise OperationalError.
Proof.
  destruct r as [|code body|code failure]; simpl; [discriminate| |];
    destruct (raises_for_status code); try discriminate.
  destruct failure; discriminate.
Qed.

Lemma loop_no_table_error (url : string) (headers : gmap string string)
    (params : option (gmap string value)) (page_size : Z) (fuel : nat) :
  forall (acc : list value) (page : Z) (total : value) (w : World)
         (r : outcome (list value)) (w' : World),
    query_api_paginated_loop env fuel url headers params page_size acc page total w
    = (r, w') ->
    r <> Raise OperationalError.
Proof.
  induction fuel as [|fuel IH]; intros acc page total w r w' H.
  - injection H as <- <-. discriminate.
  - rewrite loop_round in H. cbv zeta in H.
    match type of H with
    | context [json_of ?x] =>
        pose proof (json_of_no_table_error x) as Hj; destruct (json_of x) as [v|e|]
    end.
    + repeat match type of H with
             | context [match ?x with _ => _ end] => destruct x
             end;
        try (injection H as <- <-; discriminate); eauto.
    + injection H as <- <-. intros He. apply Hj. injection He as ->. reflexivity.
    + injection H as <- <-. discriminate.
Qed.

Lemma safe_fetch (fuel : nat) (url : string) (headers : gmap string string)
    (params : option (gmap string value)) (page_size : Z) :
  table_safe (query_api_paginated env fuel url headers params page_size).
Proof.
  intros w r w' Hdb H. split.
  - destruct (loop_requests env url headers params page_size fuel [] 1 VNone w r w' H)
      as [n [_ [_ Hdb']]].
    rewrite Hdb'. exact Hdb.
  - exact (loop_no_table_error url headers params page_size fuel [] 1 VNone w r w' H).
Qed.

Lemma safe_check_item (base_url : string) (headers : gmap string string)
    (svc api : string) (mc : bool) (db_stalled : gmap string Z) (item : value) :
  table_safe (check_item cfg env base_url headers svc api mc db_stalled item).
Proof.
  unfold check_item. apply safe_bind.
  - intros w r w' Hdb H. injection H as <- <-. split; [exact Hdb|].
    unfold is_target, error_msg, item_get.
    destruct item as [| | | | |d]; try discriminate.
    destruct (default (VStr "") (dict_get d "errorMessage")); try discriminate.
    destruct mc; discriminate.
  - intros target. destruct target; cbn [negb]; [|apply safe_ret].
    destruct item; try (apply safe_raise; discriminate).
    destruct (dict_get d "id"); [|apply safe_raise; discriminate].
    destruct (db_stalled !! _).
    + apply safe_bind; [apply safe_now|]. intros now.
      destruct (gt_int _ _); [|apply safe_ret].
      apply safe_bind; [apply safe_perform_action | intros; apply safe_remove].
    + apply safe_bind; [apply safe_now|]. intros now.
      apply safe_bind; [apply safe_add | intros; apply safe_ret].
Qed.

Lemma safe_for_each {A : Type} (f : A -> M unit) (l : list A) :
  (forall x : A, table_safe (f x)) -> table_safe (for_each f l).
Proof.
  intros Hf. induction l as [|x l IH]; cbn [for_each]; [apply safe_ret|].
  apply safe_bind; [apply Hf | intros; exact IH].
Qed.

Lemma safe_check_queue_and_act (fuel : nat) (base_url api_key svc api : string)
    (mc : bool) :
  table_safe (check_queue_and_act cfg env fuel base_url api_key svc api mc).
Proof.
  unfold check_queue_and_act. cbv zeta. apply safe_bind; [apply safe_fetch|].
  intros records. destruct records as [|x records]; [apply safe_ret|].
  apply safe_bind; [apply safe_get|]. intros db_stalled.
  apply safe_for_each. intros item. apply safe_check_item.
Qed.

Lemma safe_api_key_at (keys : option (list string)) (i : nat) :
  table_safe (api_key_at keys i).
Proof.
  unfold api_key_at. destruct keys as [l|]; [|apply safe_raise; discriminate].
  destruct (l !! i); [apply safe_ret | apply safe_raise; discriminate].
Qed.

Lemma safe_sweep_service (fuel : nat) (name : string) (keys : option (list string))
    (urls : list string) :
  forall i : nat, table_safe (sweep_service cfg env fuel name keys i urls).
Proof.
  induction urls as [|url urls IH]; intros i; cbn [sweep_service]; [apply safe_ret|].
  apply safe_bind; [apply safe_api_key_at|]. intros key.
  apply safe_bind; [apply safe_check_queue_and_act|]. intros _.
  apply safe_bind; [|intros _; apply IH].
  destruct (COUNT_DOWNLOADING_METADATA_AS_STALLED cfg); [|apply safe_ret].
  apply safe_bind; [apply safe_api_key_at|]. intros key'.
  apply safe_check_queue_and_act.
Qed.

Lemma safe_sweeps (fuel n : nat) : table_safe (sweeps cfg env fuel n).
Proof.
  induction n as [|n IH]; cbn [sweeps]; [apply safe_ret|].
  apply safe_bind; [|intros _; exact IH].
  unfold sweep. apply safe_bind; [apply safe_sweep_service|].
  intros _. apply safe_sweep_service.
Qed.

(** X12.  When STALLED_TIMEOUT is not 0, or the table is there at the start,
    no number of passes of the program ends with the error of a missing
    table, whatever the backends answer, and the table is there at the
    end. *)
Theorem table_is_never_missed (fuel n : nat) (w : World) :
  STALLED_TIMEOUT cfg <> 0 \/ db w <> None ->
  fst (main cfg env fuel n w) <> Raise OperationalError
  /\ db (snd (main cfg env fuel n w)) <> None.
Proof.
  intros H. unfold main, mbind, M_bind. rewrite initialize_database_eq.
  set (w0 := if STALLED_TIMEOUT cfg =? 0 then w
             else match db w with Some _ => w | None => set_db (Some []) w end).
  assert (Hdb0 : db w0 <> None).
  { unfold w0. destruct (STALLED_TIMEOUT cfg =? 0) eqn:E.
    - apply Z.eqb_eq in E. destruct H as [H|H]; [congruence | exact H].
    - destruct (db w) eqn:Edb; [rewrite Edb|]; discriminate. }
  destruct (sweeps cfg env fuel n w0) as [r w'] eqn:Hs.
  destruct (safe_sweeps fuel n w0 r w' Hdb0 Hs) as [H1 H2].
  split; [exact H2 | exact H1].
Qed.

(** X13.  [initialize_database] never fails and keeps an existing table
    with all its rows, so that timers survive a restart; running it a second
    time changes nothing; it leaves a table behind when STALLED_TIMEOUT is
    not 0 and leaves everything as it is when STALLED_TIMEOUT is 0. *)
Theorem initialize_database_keeps_rows (w : World) :
  exists w' : World,
    initialize_database cfg w = (Ok tt, w')
    /\ (forall t : list row, db w = Some t -> w' = w)
    /\ initialize_database cfg w' = (Ok tt, w')
    /\ (STALLED_TIMEOUT cfg <> 0 -> db w' = Some (default [] (db w)))
    /\ (STALLED_TIMEOUT cfg = 0 -> w' = w)
    /\ trace w' = trace w.
Proof.
  eexists. split; [apply initialize_database_eq|].
  rewrite initialize_database_eq.
  destruct (STALLED_TIMEOUT cfg =? 0) eqn:E.
  - apply Z.eqb_eq in E. repeat split; congruence.
  - apply Z.eqb_neq in E. destruct (db w) as [t|] eqn:Edb.
    + rewrite Edb. repeat split; congruence.
    + cbn [db set_db]. repeat split; congruence.
Qed.

End Safe.

Lemma table_is_never_missed_witness :
  fst (main search_config env_200 1 2 fresh) <> Raise OperationalError.
Proof.
  apply (table_is_never_missed search_config env_200 1 2 fresh).
  left. discriminate.
Defined.

(** ** The sweep over the instances *)

Section Sweep.

Variable cfg : Config.
Variable env : Env.

Lemma sweep_service_down (fuel : nat) (name : string) (keys : option (list string))
    (urls : list string) :
  (forall (t : nat) (u : string) (h : gmap string string) (p : gmap string value),
      json_of (http_get env t u h p) = Ok VNone) ->
  forall (i : nat) (w : World),
    (forall j : nat, (j < length urls)%nat -> is_Some (default [] keys !! (i + j)%nat)) ->
    exists w' : World,
      sweep_service cfg env (S fuel) name keys i urls w = (Ok tt, w')
      /\ db w' = db w
      /\ trace w' =
         trace w ++ polls (COUNT_DOWNLOADING_METADATA_AS_STALLED cfg) name i urls.
Proof.
  intros Hdown. induction urls as [|url urls IH]; intros i w Hkeys.
  - exists w. cbn [polls]. rewrite app_nil_r. auto.
  - destruct (Hkeys O) as [key Hkey]; [cbn [length]; lia|].
    rewrite Nat.add_0_r in Hkey.
    assert (Hat : forall w0 : World, api_key_at keys i w0 = (Ok key, w0)).
    { intros w0. unfold api_key_at. destruct keys as [l|]; [|discriminate Hkey].
      change (l !! i = Some key) in Hkey. rewrite Hkey. reflexivity. }
    assert (Hcycle : forall (mc : bool) (w0 : World),
               check_queue_and_act cfg env (S fuel) url key (name +:+ pretty i) "v3" mc w0
               = (Ok tt, call_out w0 [first_poll url "v3" (name +:+ pretty i) mc])).
    { intros mc w0. apply check_queue_and_act_fetch_failed, Hdown. }
    cbn [sweep_service polls]. unfold mbind, M_bind. rewrite Hat, Hcycle.
    destruct (COUNT_DOWNLOADING_METADATA_AS_STALLED cfg) eqn:Hflag.
    + rewrite Hat, Hcycle.
      destruct (IH (S i) (call_out (call_out w [first_poll url "v3" (name +:+ pretty i)
                                                   false])
                            [first_poll url "v3" (name +:+ pretty i) true]))
        as [w' [Hs [Hdb Htr]]].
      { intros j Hj. replace (S i + j)%nat with (i + S j)%nat by lia.
        apply Hkeys. cbn [length]. lia. }
      exists w'. split; [exact Hs|]. split; [exact Hdb|].
      rewrite Htr. cbn [trace call_out]. rewrite <- !app_assoc. reflexivity.
    + unfold mret, M_ret.
      destruct (IH (S i) (call_out w [first_poll url "v3" (name +:+ pretty i) false]))
        as [w' [Hs [Hdb Htr]]].
      { intros j Hj. replace (S i + j)%nat with (i + S j)%nat by lia.
        apply Hkeys. cbn [length]. lia. }
      exists w'. split; [exact Hs|]. split; [exact Hdb|].
      rewrite Htr. cbn [trace call_out]. rewrite <- !app_assoc. reflexivity.
Qed.

(** X14.  A sweep during which no backend can be reached ends normally and
    leaves the store as it is.  Its requests are one queue poll per cycle,
    in this order: the Radarr instances in the order of their URLs and then
    the Sonarr instances, each under the name of its kind followed by its
    index, each with the stalled check first and, when the flag is set, the
    metadata check right after it. *)
Theorem sweep_when_backends_are_down (fuel : nat) (w : World) :
  (forall (t : nat) (u : string) (h : gmap string string) (p : gmap string value),
      json_of (http_get env t u h p) = Ok VNone) ->
  (length (default [] (RADARR_URL cfg)) <= length (default [] (RADARR_API_KEY cfg)))%nat ->
  (length (default [] (SONARR_URL cfg)) <= length (default [] (SONARR_API_KEY cfg)))%nat ->
  exists w' : World,
    sweep cfg env (S fuel) w = (Ok tt, w')
    /\ db w' = db w
    /\ trace w' =
       trace w
       ++ polls (COUNT_DOWNLOADING_METADATA_AS_STALLED cfg) "Radarr" 0
            (default [] (RADARR_URL cfg))
       ++ polls (COUNT_DOWNLOADING_METADATA_AS_STALLED cfg) "Sonarr" 0
            (default [] (SONARR_URL cfg)).
Proof.
  intros Hdown Hr Hs.
  destruct (sweep_service_down fuel "Radarr" (RADARR_API_KEY cfg)
              (default [] (RADARR_URL cfg)) Hdown O w) as [w1 [H1 [Hdb1 Htr1]]].
  { intros j Hj. apply lookup_lt_is_Some. cbn. lia. }
  destruct (sweep_service_down fuel "Sonarr" (SONARR_API_KEY cfg)
              (default [] (SONARR_URL cfg)) Hdown O w1) as [w2 [H2 [Hdb2 Htr2]]].
  { intros j Hj. apply lookup_lt_is_Some. cbn. lia. }
  exists w2. split; [|split].
  - unfold sweep, mbind, M_bind. rewrite H1. exact H2.
  - rewrite Hdb2. exact Hdb1.
  - rewrite Htr2, Htr1, <- app_assoc. reflexivity.
Qed.

(** X15.  An instance whose API key is missing is not polled: when the list
    of keys is not set the sweep over the instances fails with a TypeError,
    and when it is too short with an IndexError, before any request for that
    instance; a configuration with Radarr URLs and no Radarr keys fails in
    this way at the start of its first sweep. *)
Theorem missing_key_stops_sweep (fuel : nat) (name : string) (i : nat) (url : string)
    (urls : list string) (w : World) :
  sweep_service cfg env fuel name None i (url :: urls) w = (Raise TypeError, w)
  /\ (forall keys : list string,
        (length keys <= i)%nat ->
        sweep_service cfg env fuel name (Some keys) i (url :: urls) w
        = (Raise IndexError, w))
  /\ (RADARR_URL cfg = Some (url :: urls) -> RADARR_API_KEY cfg = None ->
      sweep cfg env fuel w = (Raise TypeError, w)).
Proof.
  split; [reflexivity|]. split.
  - intros keys Hlen. cbn [sweep_service]. unfold mbind, M_bind, api_key_at.
    rewrite (proj2 (lookup_ge_None keys i) Hlen). reflexivity.
  - intros Hu Hk. unfold sweep. rewrite Hu, Hk. reflexivity.
Qed.

End Sweep.

Lemma split_comma_nonempty (s : string) : split_comma s <> [].
Proof.
  destruct s as [|c s]; cbn [split_comma]; [discriminate|].
  destruct (Ascii.eqb c ","); [discriminate|].
  destruct (split_comma s); discriminate.
Qed.

Lemma join_cons_char (sep : string) (c : ascii) (h : string) (t : list string) :
  join sep (String c h :: t) = String c (join sep (h :: t)).
Proof. destruct t; reflexivity. Qed.

Lemma split_comma_join (s : string) : join "," (split_comma s) = s.
Proof.
  induction s as [|c s IH]; [reflexivity|]. cbn [split_comma].
  destruct (Ascii.eqb c ",") eqn:E.
  - apply Ascii.eqb_eq in E. subst c.
    destruct (split_comma s) as [|h t] eqn:Hs; [exact (False_ind _ (split_comma_nonempty s Hs))|].
    change (join "," (EmptyString :: h :: t)) with (String "," (join "," (h :: t))).
    rewrite IH. reflexivity.
  - destruct (split_comma s) as [|h t] eqn:Hs; [exact (False_ind _ (split_comma_nonempty s Hs))|].
    rewrite join_cons_char, IH. reflexivity.
Qed.

Lemma split_comma_length (s : string) : length (split_comma s) = S (commas s).
Proof.
  induction s as [|c s IH]; [reflexivity|]. cbn [split_comma commas].
  destruct (Ascii.eqb c ","); [cbn [length]; rewrite IH; reflexivity|].
  destruct (split_comma s) as [|h t]; [discriminate IH | exact IH].
Qed.

Lemma split_comma_no_comma (s : string) :
  Forall (fun x => commas x = O) (split_comma s).
Proof.
  induction s as [|c s IH]; [repeat constructor|]. cbn [split_comma].
  destruct (Ascii.eqb c ",") eqn:E; [constructor; [reflexivity | exact IH]|].
  destruct (split_comma s) as [|h t]; [repeat constructor; cbn [commas]; rewrite E; reflexivity|].
  inversion IH as [|? ? Hh Ht]; subst. constructor; [|exact Ht].
  cbn [commas]. rewrite E. exact Hh.
Qed.

(** X16.  A list of the configuration is not set when its variable is
    missing or empty.  Otherwise it holds the pieces of the value between
    its commas: one more piece than there are commas, none of them with a
    comma, and joined by commas they give the value back. *)
Theorem load_list_round_trip (v : option string) :
  (v = None \/ v = Some EmptyString -> load_list v = None)
  /\ (forall s : string,
        v = Some s -> s <> EmptyString ->
        exists l : list string,
          load_list v = Some l
          /\ join "," l = s
          /\ length l = S (commas s)
          /\ Forall (fun x => commas x = O) l).
Proof.
  split.
  - intros [-> | ->]; reflexivity.
  - intros s -> Hs. exists (split_comma s). unfold load_list.
    apply String.eqb_neq in Hs. rewrite Hs.
    split; [reflexivity|]. split; [apply split_comma_join|].
    split; [apply split_comma_length | apply split_comma_no_comma].
Qed.

(** X17.  When the value of the keys has at least as many commas as the
    value of the URLs, every instance has its key: the lookup of the key of
    each index of the list of URLs succeeds, so that the sweep does not fail
    for a missing key. *)
Theorem every_instance_has_its_key (urls_v keys_v : string) (i : nat) (w : World) :
  urls_v <> EmptyString -> keys_v <> EmptyString ->
  (commas urls_v <= commas keys_v)%nat ->
  (i < length (default [] (load_list (Some urls_v))))%nat ->
  exists key : string,
    api_key_at (load_list (Some keys_v)) i w = (Ok key, w)
    /\ split_comma keys_v !! i = Some key.
Proof.
  intros Hu Hk Hc Hi. unfold load_list in *.
  apply String.eqb_neq in Hu, Hk. rewrite Hu in Hi. rewrite Hk.
  change (i < length (split_comma urls_v))%nat in Hi. rewrite split_comma_length in Hi.
  destruct (lookup_lt_is_Some_2 (split_comma keys_v) i) as [key Hkey];
    [rewrite split_comma_length; lia|].
  exists key. unfold api_key_at. rewrite Hkey. auto.
Qed.

Lemma sweep_when_backends_are_down_witness :
  exists w' : World,
    sweep three_instances env_down 1 empty_store = (Ok tt, w')
    /\ trace w' =
       [first_poll "http://radarr-a:7878" "v3" "Radarr0" false;
        first_poll "http://radarr-a:7878" "v3" "Radarr0" true;
        first_poll "http://radarr-b:7878" "v3" "Radarr1" false;
        first_poll "http://radarr-b:7878" "v3" "Radarr1" true;
        first_poll sonarr_base "v3" "Sonarr0" false;
        first_poll sonarr_base "v3" "Sonarr0" true].
Proof.
  destruct (sweep_when_backends_are_down three_instances env_down 0 empty_store)
    as [w' [Hs [_ Htr]]].
  - reflexivity.
  - cbn. lia.
  - cbn. lia.
  - exists w'. split; [exact Hs | exact Htr].
Defined.

Lemma missing_key_stops_sweep_witness :
  sweep keyless env_200 1 empty_store = (Raise TypeError, empty_store).
Proof.
  apply (proj2 (proj2 (missing_key_stops_sweep keyless env_200 1 "Radarr" 0
                         "http://radarr-a:7878" ["http://radarr-b:7878"] empty_store)));
    reflexivity.
Defined.

Lemma load_list_round_trip_witness :
  exists l : list string,
    load_list (Some urls_value) = Some l /\ join "," l = urls_value /\ length l = 2%nat.
Proof.
  destruct (proj2 (load_list_round_trip (Some urls_value)) urls_value eq_refl)
    as [l [Hl [Hj [Hlen _]]]]; [discriminate|].
  exists l. split; [exact Hl|]. split; [exact Hj | exact Hlen].
Defined.

Lemma every_instance_has_its_key_witness :
  exists key : string,
    api_key_at (load_list (Some keys_value)) 1 fresh = (Ok key, fresh)
    /\ split_comma keys_value !! 1%nat = Some key.
Proof.
  apply (every_instance_has_its_key urls_value keys_value 1 fresh).
  - discriminate.
  - discriminate.
  - cbn. lia.
  - cbn. lia.
Defined.

(** ** More on the fetch loop *)

Lemma py_iter_nonempty (v : value) (more : list value) :
  truthy v = true -> py_iter v = Some more -> (1 <= length more)%nat.
Proof.
  destruct v as [| | |s|l|d]; try discriminate; intros Ht H; injection H as <-.
  - destruct s; [discriminate | cbn; lia].
  - destruct l; [discriminate | cbn; lia].
  - destruct d; [discriminate | cbn; lia].
Qed.

Lemma json_of_returns (r : http_result) : json_of r <> Diverge.
Proof.
  destruct r as [|code body|code failure]; simpl; [discriminate| |];
    destruct (raises_for_status code); discriminate.
Qed.

Section Loop.

Variable env : Env.
Variables (url : string) (headers : gmap string string).
Variables (params : option (gmap string value)) (page_size : Z).

Local Abbreviation loop := (query_api_paginated_loop env).

(** X18.  What the fetch returns starts with what it had accumulated: no
    record of an earlier page is dropped or reordered by a later round; and
    a fetch that returns has made at least one request. *)
Theorem fetch_keeps_accumulated (fuel : nat) :
  forall (acc : list value) (page : Z) (total : value) (w : World)
         (records : list value) (w' : World),
    loop fuel url headers params page_size acc page total w = (Ok records, w') ->
    (exists more : list value, records = acc ++ more) /\ (tick w < tick w')%nat.
Proof.
  induction fuel as [|fuel IH]; intros acc page total w records w' H.
  - discriminate H.
  - rewrite loop_round in H. cbv zeta in H.
    assert (Hstop : forall (l : list value),
               (exists more : list value, l = acc ++ more) ->
               (Ok l, call_out w [EvGet url (paginated params page page_size)])
               = (Ok records, w') ->
               (exists more : list value, records = acc ++ more)
               /\ (tick w < tick w')%nat).
    { intros l Hl Hx. injection Hx as <- <-. split; [exact Hl | cbn; lia]. }
    assert (Hnext : forall (more : list value) (total' : value),
               loop fuel url headers params page_size (acc ++ more) (page + 1) total'
                 (call_out w [EvGet url (paginated params page page_size)])
               = (Ok records, w') ->
               (exists more : list value, records = acc ++ more)
               /\ (tick w < tick w')%nat).
    { intros more total' Hx. apply IH in Hx. destruct Hx as [[more' ->] Htick].
      split; [exists (more ++ more'); rewrite app_assoc; reflexivity|].
      cbn in Htick. lia. }
    assert (Hsame : exists more : list value, acc = acc ++ more)
      by (exists []; rewrite app_nil_r; reflexivity).
    repeat match type of H with
           | context [match ?x with _ => _ end] => destruct x
           end;
      try discriminate H; eauto.
Qed.

(** X19.  The fetch does not catch what a misshapen answer makes it raise:
    when the records of an answer are true in the sense of Python and
    cannot be iterated (a number other than 0, the value true), or when the
    page is a list that is not empty and the total in force is true in that
    sense and cannot be compared with a number (a text, a list or a dict
    that is not empty), the round ends with a TypeError right after its
    request. *)
Theorem misshapen_answer_raises (fuel : nat) (acc : list value) (page : Z)
    (total : value) (w : World) (d : list (string * value)) (records : value) :
  json_of (http_get env (tick w) url headers (paginated params page page_size))
  = Ok (VDict d) ->
  dict_get d "records" = Some records ->
  truthy records = true ->
  let round := loop (S fuel) url headers params page_size acc page total w in
  let w1 := call_out w [EvGet url (paginated params page page_size)] in
  (py_iter records = None -> round = (Raise TypeError, w1))
  /\ (forall (l : list value) (total' : value),
        records = VList l ->
        default total (dict_get d "totalRecords") = total' ->
        truthy total' = true ->
        (forall n : Z, int_ge n total' = None) ->
        round = (Raise TypeError, w1)).
Proof.
  intros Hd Hrec Htr round w1.
  assert (Hround : round =
            match py_iter records with
            | None => (Raise TypeError, w1)
            | Some more =>
                let total' := default total (dict_get d "totalRecords") in
                if truthy total' then
                  match int_ge (Z.of_nat (length (acc ++ more))) total' with
                  | None => (Raise TypeError, w1)
                  | Some true => (Ok (acc ++ more), w1)
                  | Some false =>
                      loop fuel url headers params page_size (acc ++ more) (page + 1)
                        total' w1
                  end
                else loop fuel url headers params page_size (acc ++ more) (page + 1)
                       total' w1
            end).
  { unfold round. rewrite loop_round. cbv zeta. rewrite Hd, Hrec, Htr.
    destruct d as [|kv d]; [discriminate|]. cbn [negb].
    destruct (py_iter records); reflexivity. }
  split.
  - intros Hit. rewrite Hround, Hit. reflexivity.
  - intros l total' -> Htot Htt Hge. rewrite Hround. cbn [py_iter]. cbv zeta.
    rewrite Htot, Htt, Hge. reflexivity.
Qed.

(** X20.  When every answer that holds records reports a total between 1
    and [bound], the fetch ends after at most [bound] rounds, and after one
    when [bound] is less than 1: with that much fuel or more it returns or
    raises, and it makes no more requests than that. *)
Theorem fetch_ends_within_total (bound : Z) (w : World) :
  (forall (t : nat) (page : Z) (d : list (string * value)),
      json_of (http_get env t url headers (paginated params page page_size))
      = Ok (VDict d) ->
      dict_get d "records" <> None ->
      exists n : Z, dict_get d "totalRecords" = Some (VInt n) /\ 0 < n <= bound) ->
  let rounds := Nat.max 1 (Z.to_nat bound) in
  exists (r : outcome (list value)) (w' : World) (n : nat),
    r <> Diverge
    /\ (n <= rounds)%nat
    /\ trace w' = trace w ++ page_requests url params page_size 1 n
    /\ forall fuel : nat,
         (rounds <= fuel)%nat ->
         query_api_paginated env fuel url headers params page_size w = (r, w').
Proof.
  intros Htotal rounds.
  assert (Hend : forall (fuel : nat) (acc : list value) (page : Z) (total : value)
                        (w0 : World),
             (1 <= fuel)%nat -> bound <= Z.of_nat (length acc) + Z.of_nat fuel ->
             fst (loop fuel url headers params page_size acc page total w0) <> Diverge).
  { induction fuel as [|fuel IH]; intros acc page total w0 Hf Hb; [lia|].
    rewrite loop_round. cbv zeta.
    match goal with
    | |- context [json_of ?x] =>
        pose proof (json_of_returns x) as Hret;
        destruct (json_of x) as [[| | | | |d]|e|] eqn:Hd
    end; try discriminate; [|congruence].
    destruct d as [|kv d]; [discriminate|].
    destruct (dict_get (kv :: d) "records") as [records|] eqn:Hrec; [|discriminate].
    destruct (Htotal _ _ _ Hd) as [n [Hn Hrange]]; [congruence|].
    rewrite Hn. change (default total (Some (VInt n))) with (VInt n).
    destruct (truthy records) eqn:Htr; [|discriminate]. cbn [negb].
    destruct (py_iter records) as [more|] eqn:Hit; [|discriminate].
    pose proof (py_iter_nonempty records more Htr Hit) as Hlen.
    cbn [truthy int_ge].
    assert (Hnz : (n =? 0) = false) by (apply Z.eqb_neq; lia). rewrite Hnz. cbn [negb].
    destruct (n <=? Z.of_nat (length (acc ++ more))) eqn:Hle; [discriminate|].
    apply Z.leb_gt in Hle. rewrite length_app in Hle.
    apply IH; rewrite ?length_app; lia. }
  destruct (query_api_paginated env rounds url headers params page_size w) as [r w']
    eqn:Hrun.
  assert (Hr : r <> Diverge).
  { pose proof (Hend rounds [] 1 VNone w) as H. unfold query_api_paginated in Hrun.
    rewrite Hrun in H. apply H; unfold rounds; cbn [length]; lia. }
  destruct (loop_requests env url headers params page_size rounds [] 1 VNone w r w' Hrun)
    as [n [Hn [Htr _]]].
  exists r, w', n. split; [exact Hr|]. split; [exact Hn|]. split; [exact Htr|].
  intros fuel Hfuel. replace fuel with (rounds + (fuel - rounds))%nat by lia.
  apply loop_fuel_mono; assumption.
Qed.

(** X21.  When every answer holds a page that is not empty and none reports
    a total, the loop of the fetch never ends: however many rounds it is
    given, it is still running after the last of them, having asked for one
    page after the other. *)
Theorem fetch_without_total_never_ends (fuel : nat) :
  (forall (t : nat) (page : Z),
      exists (d : list (string * value)) (x : value) (l : list value),
        json_of (http_get env t url headers (paginated params page page_size))
        = Ok (VDict d)
        /\ dict_get d "records" = Some (VList (x :: l))
        /\ dict_get d "totalRecords" = None) ->
  forall (acc : list value) (page : Z) (w : World),
  exists w' : World,
    loop fuel url headers params page_size acc page VNone w = (Diverge, w')
    /\ trace w' = trace w ++ page_requests url params page_size page fuel.
Proof.
  intros Hans. induction fuel as [|fuel IH]; intros acc page w.
  - exists w. split; [reflexivity|]. cbn. rewrite app_nil_r. reflexivity.
  - destruct (Hans (tick w) page) as [d [x [l [Hd [Hrec Htot]]]]].
    rewrite loop_round. cbv zeta. rewrite Hd, Hrec, Htot.
    destruct d as [|kv d]; [discriminate|].
    change (default VNone None) with VNone. cbn [truthy negb py_iter].
    destruct (IH (acc ++ x :: l) (page + 1)
                (call_out w [EvGet url (paginated params page page_size)]))
      as [w' [Hloop Htr]].
    exists w'. split; [exact Hloop|]. rewrite Htr. cbn [trace call_out page_requests].
    rewrite <- app_assoc. reflexivity.
Qed.

End Loop.

Lemma fetch_keeps_accumulated_witness :
  (exists more : list value, numbered 120 = [] ++ more)
  /\ (tick fresh < tick (three_pages (queue_url radarr_base "v3") None fresh))%nat.
Proof.
  apply (fetch_keeps_accumulated (paged_backend (numbered 120))
           (queue_url radarr_base "v3") (api_headers "key") None 50 3 [] 1 VNone fresh).
  apply (fetch_120_exact (queue_url radarr_base "v3") (api_headers "key") None fresh).
Defined.

Lemma misshapen_answer_raises_witness :
  query_api_paginated env_broken 1 (queue_url radarr_base "v3") (api_headers "key")
    None 50 fresh
  = (Raise TypeError,
     call_out fresh [EvGet (queue_url radarr_base "v3") (paginated None 1 50)]).
Proof.
  apply (proj1 (misshapen_answer_raises env_broken (queue_url radarr_base "v3")
                  (api_headers "key") None 50 0 [] 1 VNone fresh
                  [("records", VInt 5)] (VInt 5) eq_refl eq_refl eq_refl)).
  reflexivity.
Defined.

Lemma fetch_ends_within_total_witness :
  exists (r : outcome (list value)) (w' : World) (n : nat),
    r <> Diverge
    /\ (n <= 120)%nat
    /\ trace w' = trace fresh ++ page_requests (queue_url radarr_base "v3") None 50 1 n
    /\ forall fuel : nat,
         (120 <= fuel)%nat ->
         query_api_paginated (paged_backend (numbered 120)) fuel
           (queue_url radarr_base "v3") (api_headers "key") None 50 fresh = (r, w').
Proof.
  apply (fetch_ends_within_total (paged_backend (numbered 120))
           (queue_url radarr_base "v3") (api_headers "key") None 50 120 fresh).
  intros t page d Hd _. rewrite paged_backend_get in Hd. injection Hd as <-.
  exists 120. split; [reflexivity | lia].
Defined.

Lemma fetch_without_total_never_ends_witness :
  exists w' : World,
    query_api_paginated env_endless 1000 (queue_url radarr_base "v3") (api_headers "key")
      None 50 fresh = (Diverge, w')
    /\ trace w' = trace fresh ++ page_requests (queue_url radarr_base "v3") None 50 1 1000.
Proof.
  apply (fetch_without_total_never_ends env_endless (queue_url radarr_base "v3")
           (api_headers "key") None 50 1000).
  intros t page. eexists. eexists. eexists. split; [reflexivity|]. split; reflexivity.
Defined.

(** ** Letter case in the classification *)

Lemma same_letter_lower (a b : ascii) : same_letter a b -> lower_ascii a = lower_ascii b.
Proof.
  assert (Hpair : forall x y : ascii, In (x, y) letters -> lower_ascii x = lower_ascii y).
  { intros x y H. unfold letters in H. cbn [In] in H.
    repeat (destruct H as [H|H]; [injection H as <- <-; reflexivity|]).
    contradiction. }
  intros [-> | [H | H]]; [reflexivity | auto | symmetry; auto].
Qed.

Lemma same_letters_lower (s : string) :
  forall s' : string, same_letters s s' -> lower s = lower s'.
Proof.
  induction s as [|a s IH]; intros [|b s'] H; try contradiction; [reflexivity|].
  destruct H as [Hab Hs]. cbn [lower].
  rewrite (same_letter_lower a b Hab), (IH s' Hs). reflexivity.
Qed.

(** X22.  The classification does not depend on the letter case of the
    error message: two records whose messages are the same character by
    character up to the case of the 26 ASCII letters are classified alike in
    metadata mode, and in stalled mode when they have the same status.  The
    status itself is not looked at in metadata mode. *)
Theorem classification_ignores_case (d d' : list (string * value)) (raw raw' : string) :
  dict_get d "errorMessage" = Some (VStr raw) ->
  dict_get d' "errorMessage" = Some (VStr raw') ->
  same_letters raw raw' ->
  is_target true (VDict d) = is_target true (VDict d')
  /\ (dict_get d "status" = dict_get d' "status" ->
      is_target false (VDict d) = is_target false (VDict d')).
Proof.
  intros Hd Hd' Hsame. apply same_letters_lower in Hsame.
  unfold is_target, error_msg, item_get.
  rewrite Hd, Hd'.
  change (default (VStr "") (Some (VStr raw))) with (VStr raw).
  change (default (VStr "") (Some (VStr raw'))) with (VStr raw').
  cbv beta iota. rewrite Hsame.
  split; [reflexivity|]. intros ->. reflexivity.
Qed.

Lemma classification_ignores_case_witness :
  (is_target false (VDict shouted_record) = is_target false (VDict quiet_record)
   /\ is_target false (VDict quiet_record) = Ok true)
  /\ (is_target true (VDict shouted_record) = is_target true (VDict quiet_record)
      /\ is_target true (VDict quiet_record) = Ok false).
Proof.
  pose proof (classification_ignores_case shouted_record quiet_record
                "The CONNECTION was Lost" "the connection was lost"
                eq_refl eq_refl) as H.
  assert (Hs : same_letters "The CONNECTION was Lost" "the connection was lost").
  { cbn [same_letters]. unfold same_letter, letters. cbn [In].
    repeat (split; [tauto|]). exact I. }
  split; (split; [|reflexivity]).
  - apply (proj2 (H Hs)). reflexivity.
  - apply (proj1 (H Hs)).
Defined.

Lemma initialize_database_keeps_rows_witness :
  initialize_database search_config tracked_42 = (Ok tt, tracked_42).
Proof.
  destruct (initialize_database_keeps_rows search_config tracked_42)
    as [w' [H1 [H2 _]]].
  rewrite (H2 [row_42] eq_refl) in H1. exact H1.
Defined.
